(** * tilda-form-handler.js: form intake and phone-verification relay

    A shallow embedding of [src/tilda-form-handler.js] and the properties of
    its verification workflow.

    The handler is asynchronous JavaScript.  One invocation is modelled as a
    computation in a state-and-exception monad [M]: the state holds the
    module-level variables of the file, the three tables of the backing
    store, cursors into the answers of the outside world, and the log of the
    outside-world interactions performed so far.  Everything the source
    obtains from a library or from the network (driver readiness, query
    execution faults, HTTP responses, the clock, URL, date and JSON parsing)
    is a field of the record [World]; the definitions are otherwise a
    transcription of the source functions and keep their names.

    Conventions:
    - [undefined] and [null] are the [None] of an option type; a test
      [if (x)] is [truthy], [truthy_opt] or [truthy_str];
    - strings are byte strings; every character the source looks at
      (digits, [+], lowercase hex) is ASCII;
    - times are integers (milliseconds for the handler's clock); the quotient
      [(currentTime - submissionTime) / (1000 * 60)] is an exact rational,
      which compares with 5 as the double does for integer differences;
    - a query text is a constructor of [Query] carrying the interpolated
      values, and [run_query] is what the store does with it;
    - console output is left out;
    - an invocation has the module state to itself while it runs: what
      other invocations left behind is the initial [Globals]. *)

From Stdlib Require Import ZArith QArith Lia Ascii String List Bool.
From stdpp Require Import base option list gmap strings pretty.

#[local] Set Warnings "-register-all".

Open Scope Z_scope.
Open Scope string_scope.
Open Scope list_scope.

(** ** JavaScript values *)

(** JSON-shaped values.  Numbers are restricted to integers; [undefined] is
    the [None] of an [option JsValue]. *)
Inductive JsValue : Type :=
  | JNull
  | JBool (b : bool)
  | JNum (n : Z)
  | JStr (s : string)
  | JArr (xs : list JsValue)
  | JObj (o : gmap string JsValue).

Abbreviation JsObject := (gmap string JsValue).

(** ToBoolean. *)
Definition truthy (v : JsValue) : bool :=
  match v with
  | JNull => false
  | JBool b => b
  | JNum n => negb (Z.eqb n 0)
  | JStr s => negb (String.eqb s "")
  | JArr _ => true
  | JObj _ => true
  end.

Definition truthy_opt (v : option JsValue) : bool :=
  match v with Some x => truthy x | None => false end.

(** Truthiness of a string-or-undefined. *)
Definition truthy_str (s : option string) : bool :=
  match s with Some x => negb (String.eqb x "") | None => false end.

(** [a || b] on possibly-undefined values. *)
Definition js_or {A} (t : option A -> bool) (a b : option A) : option A :=
  if t a then a else b.

Definition string_of_Z (z : Z) : string := pretty z.

Fixpoint join_with (sep : string) (l : list string) : string :=
  match l with
  | [] => ""
  | [x] => x
  | x :: rest => (x ++ sep ++ join_with sep rest)%string
  end.

(** [v.toString()] for a value that is neither [null] nor [undefined]
    ([null] only occurs here as an array element, where it prints empty). *)
Fixpoint js_toString (v : JsValue) : string :=
  match v with
  | JNull => ""
  | JBool true => "true"
  | JBool false => "false"
  | JNum n => string_of_Z n
  | JStr s => s
  | JArr xs => join_with "," (List.map js_toString xs)
  | JObj _ => "[object Object]"
  end.

(** Property read [v.name] on a parsed JSON value: [None] is a TypeError
    (reading a property of [null]); [Some None] is [undefined]. *)
Definition js_get (v : JsValue) (name : string) : option (option JsValue) :=
  match v with
  | JNull => None
  | JObj o => Some (o !! name)
  | _ => Some None
  end.

(** ** Character classes and string helpers *)

Definition is_digit (c : ascii) : bool :=
  let n := nat_of_ascii c in (48 <=? n)%nat && (n <=? 57)%nat.

Definition is_lower_hex (c : ascii) : bool :=
  let n := nat_of_ascii c in
  ((48 <=? n)%nat && (n <=? 57)%nat) || ((97 <=? n)%nat && (n <=? 102)%nat).

Definition is_plus (c : ascii) : bool := Ascii.eqb c "+"%char.

Fixpoint string_forallb (p : ascii -> bool) (s : string) : bool :=
  match s with
  | EmptyString => true
  | String c rest => p c && string_forallb p rest
  end.

Fixpoint string_filter (p : ascii -> bool) (s : string) : string :=
  match s with
  | EmptyString => EmptyString
  | String c rest =>
      if p c then String c (string_filter p rest) else string_filter p rest
  end.

Definition startsWith (s pre : string) : bool := String.prefix pre s.

Fixpoint includes (s sub : string) : bool :=
  String.prefix sub s ||
  match s with
  | EmptyString => false
  | String _ rest => includes rest sub
  end.

Definition to_lower_ascii (c : ascii) : ascii :=
  let n := nat_of_ascii c in
  if (65 <=? n)%nat && (n <=? 90)%nat then ascii_of_nat (n + 32) else c.

Fixpoint toLowerCase (s : string) : string :=
  match s with
  | EmptyString => EmptyString
  | String c rest => String (to_lower_ascii c) (toLowerCase rest)
  end.

(** ** Errors, results and the monad *)

(** A thrown [Error]: its message and, for a non-2xx webhook reply, the
    [response] property ([status], [data]) attached by the sender. *)
Record JsError : Type := mkError {
  message : string;
  response : option (Z * string)
}.

Definition Error (msg : string) : JsError := mkError msg None.

(** How a computation ends.  [Diverge] is "still running when the fuel ran
    out"; only the wait-and-recheck recursion of the connection manager
    consumes fuel. *)
Inductive Res (A : Type) : Type :=
  | Ok (a : A)
  | Throw (e : JsError)
  | Diverge.
Arguments Ok {A} a.
Arguments Throw {A} e.
Arguments Diverge {A}.

(** ** The backing store *)

(** A row of [raw_submissions].  [rs_timestamp] is the value written by
    [CurrentUtcTimestamp()]; [rs_raw_data] is the stored JSON text. *)
Record RawSubmission : Type := mkRawSubmission {
  rs_id : string;
  rs_timestamp : Z;
  rs_phone : string;
  rs_source : string;
  rs_raw_data : string;
  rs_verification_key : option string;
  rs_phone_verified : bool;
  rs_webhook_sent : bool
}.

(** A row of [incoming_verification_attempts]: exactly the columns named by
    the INSERT of [logVerificationAttempt]. *)
Record VerificationAttempt : Type := mkVerificationAttempt {
  va_id : string;
  va_timestamp : Z;
  va_phone : string;
  va_source : string;
  va_verified : bool;
  va_found_in_submissions : bool
}.

(** A row of [webhook_endpoints]; both selected columns may be NULL. *)
Record WebhookEndpoint : Type := mkWebhookEndpoint {
  we_key : string;
  we_endpoint_url : option string;
  we_enabled : option bool
}.

Record Store : Type := mkStore {
  raw_submissions : list RawSubmission;
  incoming_verification_attempts : list VerificationAttempt;
  webhook_endpoints : list WebhookEndpoint
}.

(** [str.toString().replace(/\\/g, '\\\\').replace(/"/g, '\\"')
    .replace(/'/g, "\\'").replace(/\n/g, '\\n').replace(/\r/g, '\\r')]:
    five global replacements, one after the other. *)
Fixpoint replace_all (c : ascii) (rep : string) (s : string) : string :=
  match s with
  | EmptyString => EmptyString
  | String x rest =>
      if Ascii.eqb x c then rep +:+ replace_all c rep rest
      else String x (replace_all c rep rest)
  end.

Definition backslash : ascii := ascii_of_nat 92.
Definition double_quote : ascii := ascii_of_nat 34.
Definition single_quote : ascii := ascii_of_nat 39.
Definition line_feed : ascii := ascii_of_nat 10.
Definition carriage_return : ascii := ascii_of_nat 13.

Definition escapeString (str : string) : string :=
  replace_all carriage_return (String backslash "r")
    (replace_all line_feed (String backslash "n")
       (replace_all single_quote (String backslash (String single_quote ""))
          (replace_all double_quote
             (String backslash (String double_quote ""))
             (replace_all backslash (String backslash (String backslash ""))
                str)))).

(** The query texts the source builds, one constructor per text, with the
    interpolated values as arguments.  String arguments pass through
    [escapeString] in the source and are read back by the store's literal
    syntax; the two are taken to cancel, and on a phone or a key that
    passed its format check [escapeString] changes nothing. *)
Inductive Query : Type :=
  | SelectLatestSubmission (phone : string)
      (* SELECT raw_data, verification_key, timestamp FROM raw_submissions
         WHERE phone = .. ORDER BY timestamp DESC LIMIT 1 *)
  | SelectWebhookEndpoint (key : string)
      (* SELECT endpoint_url, enabled FROM webhook_endpoints
         WHERE key = .. LIMIT 1 *)
  | InsertVerificationAttempt (id phone source : string)
                              (verified foundInSubmissions : bool)
  | UpdateDelivered (key phone : string)
      (* UPDATE raw_submissions SET phone_verified = true,
         webhook_sent = true, verification_key = .. WHERE phone = .. *)
  | UpdateNotDelivered (phone : string)
      (* UPDATE raw_submissions SET webhook_sent = false WHERE phone = .. *)
  | InsertRawSubmission (id phone source raw_data : string)
                        (verification_key : option string).

(** A typed cell of a result row, as the source reads it: a field is
    [undefined] ([None]) when the cell does not carry that type. *)
Record Cell : Type := mkCell {
  textValue : option string;
  bytesValue : option string;
  uint64Value : option Z;
  boolValue : option bool
}.

Definition no_cell : Cell := mkCell None None None None.
Definition text_cell (s : string) : Cell := mkCell (Some s) None None None.
Definition uint64_cell (n : Z) : Cell := mkCell None None (Some n) None.
Definition bool_cell (b : bool) : Cell := mkCell None None None (Some b).

Definition opt_cell {A} (f : A -> Cell) (o : option A) : Cell :=
  match o with Some a => f a | None => no_cell end.

(** [ORDER BY timestamp DESC LIMIT 1] over the rows of one phone: the
    greatest timestamp, the earlier row on a tie. *)
Fixpoint latest (best : option RawSubmission) (rows : list RawSubmission)
  : option RawSubmission :=
  match rows with
  | [] => best
  | r :: rest =>
      match best with
      | None => latest (Some r) rest
      | Some b =>
          if Z.ltb (rs_timestamp b) (rs_timestamp r)
          then latest (Some r) rest else latest best rest
      end
  end.

Definition rows_of_phone (phone : string) (rows : list RawSubmission)
  : list RawSubmission :=
  List.filter (fun r => String.eqb (rs_phone r) phone) rows.

Definition update_where_phone (phone : string)
    (f : RawSubmission -> RawSubmission) (rows : list RawSubmission)
  : list RawSubmission :=
  List.map (fun r => if String.eqb (rs_phone r) phone then f r else r) rows.

Definition set_delivered (key : string) (r : RawSubmission) : RawSubmission :=
  mkRawSubmission (rs_id r) (rs_timestamp r) (rs_phone r) (rs_source r)
    (rs_raw_data r) (Some key) true true.

Definition set_not_delivered (r : RawSubmission) : RawSubmission :=
  mkRawSubmission (rs_id r) (rs_timestamp r) (rs_phone r) (rs_source r)
    (rs_raw_data r) (rs_verification_key r) (rs_phone_verified r) false.

(** What the store does with a query that executes: the new tables and the
    rows of the first result set.  [now] is [CurrentUtcTimestamp()]. *)
Definition run_query (now : Z) (q : Query) (db : Store)
  : Store * list (list Cell) :=
  match q with
  | SelectLatestSubmission phone =>
      (db,
       match latest None (rows_of_phone phone (raw_submissions db)) with
       | Some r => [[text_cell (rs_raw_data r);
                     opt_cell text_cell (rs_verification_key r);
                     uint64_cell (rs_timestamp r)]]
       | None => []
       end)
  | SelectWebhookEndpoint key =>
      (db,
       match List.find (fun e => String.eqb (we_key e) key)
                       (webhook_endpoints db) with
       | Some e => [[opt_cell text_cell (we_endpoint_url e);
                     opt_cell bool_cell (we_enabled e)]]
       | None => []
       end)
  | InsertVerificationAttempt id phone source verified found =>
      (mkStore (raw_submissions db)
         (incoming_verification_attempts db ++
            [mkVerificationAttempt id now phone source verified found])
         (webhook_endpoints db), [])
  | UpdateDelivered key phone =>
      (mkStore (update_where_phone phone (set_delivered key)
                  (raw_submissions db))
         (incoming_verification_attempts db) (webhook_endpoints db), [])
  | UpdateNotDelivered phone =>
      (mkStore (update_where_phone phone set_not_delivered
                  (raw_submissions db))
         (incoming_verification_attempts db) (webhook_endpoints db), [])
  | InsertRawSubmission id phone source raw_data key =>
      (mkStore (raw_submissions db ++
                  [mkRawSubmission id now phone source raw_data key
                     false false])
         (incoming_verification_attempts db) (webhook_endpoints db), [])
  end.

(** ** The outside world *)

(** Outcome of [driver.ready(timeout)]. *)
Inductive ReadyOutcome : Type :=
  | ReadyResolved (ready : bool)
  | ReadyRejected (e : JsError).

(** The outbound request handed to [https.request]. *)
Record Request : Type := mkRequest {
  req_url : string;
  req_method : string;
  req_headers : list (string * JsValue);
  req_timeout : Z;
  req_body : string
}.

(** What comes back: a complete response, a transport error, or nothing
    within the timeout. *)
Inductive HttpOutcome : Type :=
  | HttpResponse (statusCode : Z) (responseData : string)
  | HttpError (e : JsError)
  | HttpTimeout.

(** A parsed URL, as far as the source looks at it. *)
Record URL : Type := mkURL {
  searchParams_key : option string;
  hostname : string
}.

Record World : Type := mkWorld {
  (* the n-th readiness probe on the cached driver *)
  driver_ready : nat -> ReadyOutcome;
  (* the n-th [new Driver] raced against its timeout *)
  driver_connect : nat -> ReadyOutcome;
  (* whether the n-th query fails, and the store's clock when it runs *)
  query_fault : nat -> option JsError;
  db_now : nat -> Z;
  (* the n-th reading of the handler's clock, in milliseconds *)
  Date_now : nat -> Z;
  (* [new Date(string)]: [None] is an invalid date *)
  Date_parse : string -> option Z;
  toISOString : Z -> string;
  https_request : Request -> HttpOutcome;
  (* [None] is a thrown SyntaxError *)
  JSON_parse : string -> option JsValue;
  JSON_stringify : JsValue -> string;
  querystring_parse : string -> JsObject;
  (* [Buffer.from(s, 'base64').toString('utf-8')] *)
  base64_decode : string -> string;
  (* [new URLSearchParams(q).get('key')] *)
  URLSearchParams_key : string -> option string;
  (* [new URL(s)]: [None] is a thrown TypeError *)
  URL_parse : string -> option URL
}.

Inductive Event : Type :=
  | EvProbe (timeout : Z)
  | EvConnect (attempt : Z)
  | EvSleep (ms : Z)
  | EvQuery (q : Query)
  | EvRequest (r : Request).

(** ** Module state *)

Definition Driver := nat.

Record Globals : Type := mkGlobals {
  driverInstance : option Driver;
  driverInitializing : bool;
  lastDriverError : option JsError;
  healthCheckInterval : bool
}.

Record State : Type := mkState {
  globals : Globals;
  store : Store;
  n_probe : nat;
  n_connect : nat;
  n_query : nat;
  n_date : nat;
  trace : list Event
}.

Definition M (A : Type) : Type := State -> Res A * State.

Definition ret {A} (a : A) : M A := fun s => (Ok a, s).
Definition throw {A} (e : JsError) : M A := fun s => (Throw e, s).
Definition diverge {A} : M A := fun s => (Diverge, s).

Definition bind {A B} (m : M A) (k : A -> M B) : M B :=
  fun s =>
    match m s with
    | (Ok a, s') => k a s'
    | (Throw e, s') => (Throw e, s')
    | (Diverge, s') => (Diverge, s')
    end.

(** [try { m } catch (error) { h error }]. *)
Definition try_catch {A} (m : M A) (h : JsError -> M A) : M A :=
  fun s =>
    match m s with
    | (Throw e, s') => h e s'
    | r => r
    end.

Notation "'let*' x ':=' m 'in' k" := (bind m (fun x => k))
  (at level 10, x name, m at level 100, k at level 200).
Notation "m ';;' k" := (bind m (fun _ => k))
  (at level 100, k at level 200, right associativity).

Definition get_globals : M Globals := fun s => (Ok (globals s), s).

Definition set_globals (f : Globals -> Globals) : M unit :=
  fun s => (Ok tt, mkState (f (globals s)) (store s) (n_probe s) (n_connect s)
                     (n_query s) (n_date s) (trace s)).

Definition emit (e : Event) : M unit :=
  fun s => (Ok tt, mkState (globals s) (store s) (n_probe s) (n_connect s)
                     (n_query s) (n_date s) (trace s ++ [e])).

Definition set_driverInstance (d : option Driver) (g : Globals) : Globals :=
  mkGlobals d (driverInitializing g) (lastDriverError g) (healthCheckInterval g).
Definition set_driverInitializing (b : bool) (g : Globals) : Globals :=
  mkGlobals (driverInstance g) b (lastDriverError g) (healthCheckInterval g).
Definition set_lastDriverError (e : option JsError) (g : Globals) : Globals :=
  mkGlobals (driverInstance g) (driverInitializing g) e (healthCheckInterval g).
Definition set_healthCheckInterval (b : bool) (g : Globals) : Globals :=
  mkGlobals (driverInstance g) (driverInitializing g) (lastDriverError g) b.

(** ** Connection manager *)

Section Handler.

Context (w : World).

Definition maxRetries : Z := 5.
Definition initialDelay : Z := 1000.

(** [await new Promise(resolve => setTimeout(resolve, ms))]. *)
Definition sleep (ms : Z) : M unit := emit (EvSleep ms).

(** [driverInstance.ready(timeout)] on the cached driver. *)
Definition probe (timeout : Z) : M ReadyOutcome :=
  fun s =>
    (Ok (driver_ready w (n_probe s)),
     mkState (globals s) (store s) (S (n_probe s)) (n_connect s)
       (n_query s) (n_date s) (trace s ++ [EvProbe timeout])).

(** [new Driver(..)] followed by the race of [driver.ready] against the
    timeout promise; the new driver is named by the attempt's index. *)
Definition connect (attempt : Z) : M (Driver * ReadyOutcome) :=
  fun s =>
    (Ok (n_connect s, driver_connect w (n_connect s)),
     mkState (globals s) (store s) (n_probe s) (S (n_connect s))
       (n_query s) (n_date s) (trace s ++ [EvConnect attempt])).

Definition isDriverReady : M bool :=
  let* g := get_globals in
  match driverInstance g with
  | None => ret false
  | Some _ =>
      let* r := probe 1000 in
      match r with
      | ReadyResolved ready => ret ready
      | ReadyRejected _ =>
          set_globals (set_driverInstance None);;
          ret false
      end
  end.

(** The timer callback is not run inside an invocation; only the fact that
    a timer is installed is recorded. *)
Definition startHealthChecks : M unit :=
  set_globals (set_healthCheckInterval true).

(** [driverInstance && await isDriverReady()]. *)
Definition cached_and_ready : M bool :=
  let* g := get_globals in
  match driverInstance g with
  | None => ret false
  | Some _ => isDriverReady
  end.

(** [return driverInstance]. *)
Definition return_driverInstance : M (option Driver) :=
  let* g := get_globals in
  ret (driverInstance g).

(** The [for (attempt = 1; attempt <= maxRetries; attempt++)] loop of
    [initYDBDriverWithRetry] and the two statements after it, entered at
    [attempt] with [todo = maxRetries + 1 - attempt] iterations left.  The
    value the race resolves with is not looked at. *)
Fixpoint retry_loop (todo : nat) (attempt : Z) : M (option Driver) :=
  match todo with
  | O =>
      set_globals (set_driverInitializing false);;
      throw (Error "Failed to initialize YDB driver after retries")
  | S todo' =>
      let* c := connect attempt in
      match snd c with
      | ReadyResolved _ =>
          set_globals (set_driverInstance (Some (fst c)));;
          set_globals (set_lastDriverError None);;
          startHealthChecks;;
          return_driverInstance
      | ReadyRejected error =>
          set_globals (set_lastDriverError (Some error));;
          if Z.eqb attempt maxRetries then
            set_globals (set_driverInitializing false);;
            throw error
          else
            let delay := initialDelay * Z.pow 2 (attempt - 1) in
            sleep delay;;
            retry_loop todo' (attempt + 1)
      end
  end.

Fixpoint initYDBDriverWithRetry (fuel : nat) : M (option Driver) :=
  match fuel with
  | O => diverge
  | S fuel' =>
      let* ready := cached_and_ready in
      if ready then return_driverInstance
      else
        let* g := get_globals in
        if driverInitializing g then
          sleep 1000;;
          initYDBDriverWithRetry fuel'
        else
          set_globals (set_driverInitializing true);;
          retry_loop (Z.to_nat maxRetries) 1
  end.

Definition getYDBDriver (fuel : nat) : M (option Driver) :=
  try_catch
    (let* ready := cached_and_ready in
     if ready then return_driverInstance
     else initYDBDriverWithRetry fuel)
    (fun _ => throw (Error "Database connection failed")).

(** ** Store access *)

(** [driver.tableClient.withSession(session => session.executeQuery(query))]:
    the n-th query either fails with the world's error, leaving the tables as
    they were, or runs. *)
Definition executeQuery (q : Query) : M (list (list Cell)) :=
  fun s =>
    let s1 := mkState (globals s) (store s) (n_probe s) (n_connect s)
                (S (n_query s)) (n_date s) (trace s ++ [EvQuery q]) in
    match query_fault w (n_query s) with
    | Some e => (Throw e, s1)
    | None =>
        let r := run_query (db_now w (n_query s)) q (store s) in
        (Ok (snd r),
         mkState (globals s1) (fst r) (n_probe s1) (n_connect s1)
           (n_query s1) (n_date s1) (trace s1))
    end.

Definition executeYdbQuery (q : Query) : M (list (list Cell)) :=
  try_catch (executeQuery q) (fun error => throw error).

(** [Date.now()] and [new Date()]. *)
Definition now : M Z :=
  fun s =>
    (Ok (Date_now w (n_date s)),
     mkState (globals s) (store s) (n_probe s) (n_connect s)
       (n_query s) (S (n_date s)) (trace s)).

(** The object returned by [findOriginalRawSubmission]; [od_timestamp] is a
    [Date], [None] when invalid. *)
Record OriginalData : Type := mkOriginalData {
  raw_data : JsValue;
  verification_key : option string;
  od_timestamp : option Z
}.

(** [cell.textValue || cell.bytesValue?.toString()]. *)
Definition text_or_bytes (c : Cell) : option string :=
  js_or truthy_str (textValue c) (bytesValue c).

Definition type_error (msg : string) : JsError := Error msg.

Definition findOriginalRawSubmission (phone : string)
  : M (option OriginalData) :=
  if String.eqb phone "" then ret None
  else
    try_catch
      (let* rows := executeQuery (SelectLatestSubmission phone) in
       match rows with
       | [] => ret None
       | row :: _ =>
           let rawData :=
             match row !! 0%nat with
             | None => JObj ∅
             | Some c =>
                 match text_or_bytes c with
                 | Some rawDataString =>
                     if truthy_str (Some rawDataString) then
                       match JSON_parse w rawDataString with
                       | Some v => v
                       | None => JObj ∅
                       end
                     else JObj ∅
                 | None => JObj ∅
                 end
             end in
           let key :=
             match row !! 1%nat with
             | Some c => text_or_bytes c
             | None => None
             end in
           match row !! 2%nat with
           | None =>
               throw (type_error
                 "Cannot read properties of undefined (reading 'uint64Value')")
           | Some c =>
               match uint64Value c with
               | Some n =>
                   ret (Some (mkOriginalData rawData key
                                (Date_parse w (string_of_Z n))))
               | None =>
                   let* t := now in
                   ret (Some (mkOriginalData rawData key (Some t)))
               end
           end
       end)
      (fun error => throw error).

Definition getWebhookEndpoint (key : option string) : M (option string) :=
  if negb (truthy_str key) then ret None
  else
    try_catch
      (let* rows :=
         executeQuery (SelectWebhookEndpoint (default "" key)) in
       match rows with
       | [] => ret None
       | row :: _ =>
           match row !! 0%nat with
           | None =>
               throw (type_error
                 "Cannot read properties of undefined (reading 'textValue')")
           | Some c0 =>
               match (match textValue c0 with
                      | Some t => Some t
                      | None => bytesValue c0
                      end) with
               | None => ret None
               | Some endpoint =>
                   let enabled :=
                     match row !! 1%nat with
                     | Some c1 => default false (boolValue c1)
                     | None => false
                     end in
                   if negb enabled then ret None else ret (Some endpoint)
               end
           end
       end)
      (fun error => throw error).

(** The destructured argument of [logVerificationAttempt]. *)
Record AttemptArgs : Type := mkAttemptArgs {
  attemptId : string;
  la_normalizedPhone : string;
  la_source : string;
  verified : bool;
  foundInSubmissions : bool;
  status : option string
}.

Definition logVerificationAttempt (a : AttemptArgs) : M unit :=
  try_catch
    (executeYdbQuery
       (InsertVerificationAttempt (attemptId a) (la_normalizedPhone a)
          (la_source a) (verified a) (foundInSubmissions a));;
     ret tt)
    (fun error => throw error).

(** ** Request parsing helpers *)

(** The invocation event, as far as the handler reads it. *)
Record LambdaEvent : Type := mkLambdaEvent {
  httpMethod : string;
  queryStringParameters : option (gmap string string);
  multiValueQueryStringParameters : option (gmap string (list string));
  rawQuery : option string;
  headers : option (gmap string string);
  body : option string;
  isBase64Encoded : bool
}.

(** [obj?.[name]] on an optional string map. *)
Definition opt_lookup {V} (o : option (gmap string V)) (name : string)
  : option V :=
  match o with Some m => m !! name | None => None end.

(** [/^[a-f0-9]{32}$/.test(key)]. *)
Definition is_key_format (key : string) : bool :=
  string_forallb is_lower_hex key && Nat.eqb (String.length key) 32.

Definition extractVerificationKey (event : LambdaEvent) : option string :=
  let key :=
    if truthy_str (opt_lookup (queryStringParameters event) "key") then
      opt_lookup (queryStringParameters event) "key"
    else
      match opt_lookup (multiValueQueryStringParameters event) "key" with
      | Some keys => head keys
      | None =>
          match rawQuery event with
          | Some q =>
              if truthy_str (Some q) then URLSearchParams_key w q else None
          | None => None
          end
      end in
  let key :=
    if negb (truthy_str key) then
      let webhookUrl :=
        js_or truthy_str (opt_lookup (headers event) "x-webhook-url")
                         (opt_lookup (headers event) "X-Webhook-Url") in
      match webhookUrl with
      | Some u =>
          if truthy_str (Some u) then
            match URL_parse w u with
            | Some urlObj => searchParams_key urlObj
            | None => key
            end
          else key
      | None => key
      end
    else key in
  match key with
  | Some k =>
      if truthy_str (Some k) && negb (is_key_format k) then None else key
  | None => key
  end.

Definition string_drop (n : nat) (s : string) : string :=
  String.substring n (String.length s - n) s.

(** [phone.toString().replace(/[^\d+]/g, '')] and the prefix rules. *)
Definition normalizePhone (phone : option JsValue) : option string :=
  match phone with
  | None => None
  | Some p =>
      if negb (truthy p) then None
      else
        let cleanPhone :=
          string_filter (fun c => is_digit c || is_plus c) (js_toString p) in
        if startsWith cleanPhone "+" then Some cleanPhone
        else if startsWith cleanPhone "8"
                && Nat.eqb (String.length cleanPhone) 11
        then Some ("+7" +:+ string_drop 1 cleanPhone)
        else if startsWith cleanPhone "7"
                && Nat.eqb (String.length cleanPhone) 11
        then Some ("+" +:+ cleanPhone)
        else if Nat.eqb (String.length cleanPhone) 10
        then Some ("+7" +:+ cleanPhone)
        else Some ("+" +:+ cleanPhone)
  end.

(** [/^\+[0-9]{10,15}$/.test(phone)]. *)
Definition isValidPhone (phone : string) : bool :=
  if String.eqb phone "" then false
  else
    match phone with
    | String c digits =>
        is_plus c && string_forallb is_digit digits
        && Nat.leb 10 (String.length digits)
        && Nat.leb (String.length digits) 15
    | EmptyString => false
    end.

(** [data] is never [null] or [undefined] where this is called. *)
Definition determineSource (data : JsValue)
    (hdrs : option (gmap string string)) : string :=
  let prop name := match js_get data name with Some v => v | None => None end in
  if negb (truthy data) then "unknown"
  else if truthy_opt (prop "source") then
    toLowerCase (js_toString (default JNull (prop "source")))
  else if bool_decide (is_Some (prop "call_status"))
          || bool_decide (is_Some (prop "call_duration"))
          || bool_decide (is_Some (prop "wa_verified"))
  then "whatsapp"
  else if truthy_opt (prop "formid") || truthy_opt (prop "Name")
          || truthy_opt (prop "Phone")
  then "tilda"
  else
    match js_or truthy_str (opt_lookup hdrs "user-agent")
                           (opt_lookup hdrs "User-Agent") with
    | Some userAgent =>
        if includes userAgent "Apache-HttpClient" then "whatsapp"
        else "unknown"
    | None => "unknown"
    end.

(** [s.replace(pat, rep)] with a string pattern: the first occurrence. *)
Fixpoint replace_first (pat rep s : string) : string :=
  if String.prefix pat s then rep +:+ string_drop (String.length pat) s
  else
    match s with
    | EmptyString => EmptyString
    | String c rest => String c (replace_first pat rep rest)
    end.

Definition extractDomainFromReferer (hdrs : option (gmap string string))
  : option string :=
  match js_or truthy_str (opt_lookup hdrs "referer")
                         (opt_lookup hdrs "Referer") with
  | Some referer =>
      if truthy_str (Some referer) then
        match URL_parse w referer with
        | Some u => Some (replace_first "www." "" (hostname u))
        | None => None
        end
      else None
  | None => None
  end.

(** ** Webhook delivery *)

(** [{...value}]: the own enumerable properties of the value. *)
Definition js_spread (v : JsValue) : JsObject :=
  match v with
  | JObj o => o
  | JArr xs =>
      list_to_map (imap (fun i x => (string_of_Z (Z.of_nat i), x)) xs)
  | JStr str =>
      list_to_map
        (imap (fun i c => (string_of_Z (Z.of_nat i), JStr (String c "")))
              (list_ascii_of_string str))
  | _ => ∅
  end.

Definition sendToWebhookWithCookies (url : string) (data : JsObject)
    (cookies : option JsValue) : M string :=
  if String.eqb url "" then throw (Error "Webhook URL is required")
  else
    let postData := JSON_stringify w (JObj data) in
    let base_headers :=
      [("Content-Type", JStr "application/json");
       ("Content-Length", JNum (Z.of_nat (String.length postData)))] in
    let all_headers :=
      match cookies with
      | Some c =>
          if truthy c then base_headers ++ [("Cookie", c)] else base_headers
      | None => base_headers
      end in
    let req := mkRequest url "POST" all_headers 10000 postData in
    emit (EvRequest req);;
    match https_request w req with
    | HttpResponse statusCode responseData =>
        if Z.leb 200 statusCode && Z.ltb statusCode 300 then ret responseData
        else
          throw (mkError
                   ("Webhook responded with status " +:+ string_of_Z statusCode)
                   (Some (statusCode, responseData)))
    | HttpError error => throw error
    | HttpTimeout => throw (Error "Request timeout")
    end.

(** ** Responses *)

Inductive Body : Type :=
  | BodyText (text : string)
  | BodyJson (fields : list (string * JsValue)).

Record Response : Type := mkResponse {
  resp_headers : list (string * string);
  statusCode : Z;
  resp_body : Body
}.

Definition responseConfig : list (string * string) :=
  [("Content-Type", "application/json");
   ("Access-Control-Allow-Origin", "*");
   ("Access-Control-Allow-Methods", "GET, POST, OPTIONS");
   ("Access-Control-Allow-Headers", "Content-Type, Authorization")].

(** ** Verification *)

Definition verification_window_minutes : Q := 5%Q.

(** [(currentTime - submissionTime) / (1000 * 60)]; [None] is [NaN]. *)
Definition timeDiffMinutes (currentTime : Z) (submissionTime : option Z)
  : option Q :=
  match submissionTime with
  | Some t => Some (inject_Z (currentTime - t) / inject_Z (1000 * 60))%Q
  | None => None
  end.

(** [timeDiffMinutes > 5]; a comparison with [NaN] is false. *)
Definition window_expired (d : option Q) : bool :=
  match d with
  | Some q =>
      match Qcompare verification_window_minutes q with
      | Lt => true
      | _ => false
      end
  | None => false
  end.

(** The object literal handed to the webhook. *)
Definition webhookData (originalData : OriginalData)
    (normalizedPhone source timestamp : string) : JsObject :=
  <["verified" := JBool true]>
    (<["verification_timestamp" := JStr timestamp]>
       (<["verification_source" := JStr source]>
          (<["verification_phone" := JStr normalizedPhone]>
             (js_spread (raw_data originalData))))).

(** Steps 6 and 7 of [handleVerification]: the [try] block and its
    [catch]. *)
Definition deliver_and_record (normalizedPhone source : string)
    (originalData : OriginalData) (finalVerificationKey : option string)
    (webhookUrl : string) : M Response :=
  try_catch
    (let* t := now in
     let data :=
       webhookData originalData normalizedPhone source (toISOString w t) in
     match js_get (raw_data originalData) "COOKIES" with
     | None =>
         throw (type_error
                  "Cannot read properties of null (reading 'COOKIES')")
     | Some cookies =>
         sendToWebhookWithCookies webhookUrl data cookies;;
         executeYdbQuery
           (UpdateDelivered (default "" finalVerificationKey)
              normalizedPhone);;
         ret (mkResponse responseConfig 200
                (BodyJson
                   [("status", JStr "success");
                    ("message", JStr "Phone verified successfully");
                    ("phone", JStr normalizedPhone);
                    ("verified", JBool true);
                    ("webhook_sent", JBool true);
                    ("cookies_included", JBool (truthy_opt cookies))]))
     end)
    (fun error =>
       executeYdbQuery (UpdateNotDelivered normalizedPhone);;
       ret (mkResponse responseConfig 200
              (BodyJson
                 [("status", JStr "error");
                  ("message",
                   JStr "Verification completed but webhook failed");
                  ("phone", JStr normalizedPhone);
                  ("verified", JBool true);
                  ("webhook_sent", JBool false);
                  ("error", JStr (message error))]))).

Definition timeout_response (normalizedPhone : string) : Response :=
  mkResponse responseConfig 200
    (BodyJson
       [("status", JStr "timeout");
        ("message", JStr "Verification window expired");
        ("phone", JStr normalizedPhone);
        ("verified", JBool false)]).

Definition not_found_response (normalizedPhone : string) : Response :=
  mkResponse responseConfig 200
    (BodyJson
       [("status", JStr "success");
        ("message", JStr "Phone not found in forms");
        ("phone", JStr normalizedPhone);
        ("verified", JBool false)]).

(** Steps 3 to 7: everything after the window check. *)
Definition log_and_dispatch (aid normalizedPhone source : string)
    (verificationKey : option string) (originalData : option OriginalData)
  : M Response :=
  logVerificationAttempt
    (mkAttemptArgs aid normalizedPhone source false
       (bool_decide (is_Some originalData)) None);;
  match originalData with
  | None => ret (not_found_response normalizedPhone)
  | Some od =>
      let finalVerificationKey :=
        js_or truthy_str verificationKey (verification_key od) in
      let* webhookUrl := getWebhookEndpoint finalVerificationKey in
      match webhookUrl with
      | Some url =>
          if truthy_str (Some url) then
            deliver_and_record normalizedPhone source od
              finalVerificationKey url
          else throw (Error "Webhook endpoint not found")
      | None => throw (Error "Webhook endpoint not found")
      end
  end.

Definition handleVerification (normalizedPhone source : string)
    (verificationKey : option string) : M Response :=
  let* t0 := now in
  let aid := string_of_Z t0 in
  let* originalData := findOriginalRawSubmission normalizedPhone in
  match originalData with
  | Some od =>
      let submissionTime := od_timestamp od in
      let* currentTime := now in
      if window_expired (timeDiffMinutes currentTime submissionTime) then
        logVerificationAttempt
          (mkAttemptArgs aid normalizedPhone source false true
             (Some "timeout"));;
        ret (timeout_response normalizedPhone)
      else
        log_and_dispatch aid normalizedPhone source verificationKey
          originalData
  | None =>
      log_and_dispatch aid normalizedPhone source verificationKey
        originalData
  end.

(** ** Intake *)

Definition handleTildaSubmission (event : LambdaEvent) (parsedData : JsValue)
    (normalizedPhone : string) (verificationKey : option string)
  : M Response :=
  let* t0 := now in
  let submissionId := string_of_Z t0 in
  let domain :=
    default "tilda"
      (js_or truthy_str (extractDomainFromReferer (headers event))
                        (Some "tilda")) in
  let query :=
    InsertRawSubmission submissionId normalizedPhone domain
      (JSON_stringify w parsedData)
      (if truthy_str verificationKey then verificationKey else None) in
  try_catch
    (executeYdbQuery query;;
     ret (mkResponse responseConfig 200
            (BodyJson
               [("status", JStr "success");
                ("message", JStr "Form data saved successfully");
                ("submissionId", JStr submissionId);
                ("phone", JStr normalizedPhone);
                ("verificationKey",
                 match verificationKey with
                 | Some k => if truthy_str (Some k) then JStr k else JNull
                 | None => JNull
                 end)])))
    (fun error => throw error).

(** ** The exported handler *)

(** The values assigned inside the inner [try] of the handler. *)
Record Parsed : Type := mkParsed {
  p_phone : option JsValue;
  p_source : string;
  parsedData : JsValue
}.

(** [a || b] on property reads. *)
Definition prop_or (a b : option JsValue) : option JsValue :=
  if truthy_opt a then a else b.

(** The inner [try] block; [None] stands for any exception thrown in it,
    which the [catch] replaces by one fixed error. *)
Definition parse_request (event : LambdaEvent) : option Parsed :=
  if String.eqb (httpMethod event) "GET" then
    Some (mkParsed (JStr <$> opt_lookup (queryStringParameters event) "phone")
            "telegram" (JObj ∅))
  else
    let bodyString :=
      if isBase64Encoded event
      then match body event with
           | Some b => Some (Some (base64_decode w b))
           | None => None
           end
      else Some (body event) in
    match bodyString, headers event with
    | Some bodyString, Some hdrs =>
        let contentType :=
          js_or truthy_str (hdrs !! "content-type") (hdrs !! "Content-Type") in
        let is_json :=
          match contentType with
          | Some ct => includes ct "application/json"
          | None => false
          end in
        let data :=
          if is_json then
            match bodyString with
            | Some b => JSON_parse w b
            | None => None
            end
          else
            Some (JObj (match bodyString with
                        | Some b => querystring_parse w b
                        | None => ∅
                        end)) in
        match data with
        | Some d =>
            match js_get d "Phone", js_get d "phone" with
            | Some upper, Some lower =>
                Some (mkParsed (prop_or upper lower)
                        (determineSource d (headers event)) d)
            | _, _ => None
            end
        | None => None
        end
    | _, _ => None
    end.

Definition service_unavailable_response : Response :=
  mkResponse responseConfig 503
    (BodyJson
       [("status", JStr "error");
        ("message", JStr "Service temporarily unavailable");
        ("retryable", JBool true);
        ("code", JStr "SERVICE_UNAVAILABLE")]).

Definition processing_error_response (error : JsError) : Response :=
  mkResponse responseConfig 200
    (BodyJson
       [("status", JStr "error");
        ("message",
         JStr (if String.eqb (message error) ""
               then "Request processing error" else message error));
        ("code", JStr "PROCESSING_ERROR")]).

Definition handler (fuel : nat) (event : LambdaEvent) : M Response :=
  if String.eqb (httpMethod event) "OPTIONS" then
    ret (mkResponse responseConfig 204 (BodyText ""))
  else
    try_catch
      (let* driver :=
         try_catch (getYDBDriver fuel)
           (fun _ => throw (Error "Database service unavailable")) in
       let verificationKey := extractVerificationKey event in
       match parse_request event with
       | None => throw (Error "Invalid request data format")
       | Some parsed =>
           match normalizePhone (p_phone parsed) with
           | None => throw (Error "Invalid phone format")
           | Some normalizedPhone =>
               if negb (isValidPhone normalizedPhone) then
                 throw (Error "Invalid phone format")
               else if String.eqb (p_source parsed) "telegram"
                       || String.eqb (p_source parsed) "whatsapp" then
                 handleVerification normalizedPhone (p_source parsed)
                   verificationKey
               else if String.eqb (p_source parsed) "tilda" then
                 handleTildaSubmission event (parsedData parsed)
                   normalizedPhone verificationKey
               else
                 throw (Error ("Unsupported source: " +:+ p_source parsed))
           end
       end)
      (fun error =>
         if includes (message error) "Database connection failed"
            || includes (message error) "UNAVAILABLE"
            || includes (message error) "Name resolution failed"
            || includes (message error) "Database service unavailable"
         then ret service_unavailable_response
         else ret (processing_error_response error)).

End Handler.

(** ** Vocabulary of the properties *)

(** What an invocation did to the outside world, read off its log. *)
Definition requests (t : list Event) : list Request :=
  omap (fun e => match e with EvRequest r => Some r | _ => None end) t.

Definition queries (t : list Event) : list Query :=
  omap (fun e => match e with EvQuery q => Some q | _ => None end) t.

Definition connect_attempts (t : list Event) : list Z :=
  omap (fun e => match e with EvConnect a => Some a | _ => None end) t.

(** [k] failed attempts numbered from [attempt], each followed by its
    back-off wait. *)
Fixpoint backoff_trace (k : nat) (attempt : Z) : list Event :=
  match k with
  | O => []
  | S k' =>
      EvConnect attempt :: EvSleep (initialDelay * 2 ^ (attempt - 1))
        :: backoff_trace k' (attempt + 1)
  end.

(** The shape of one connection establishment that starts at attempt number
    [attempt] with [todo] attempts allowed: [k] attempts are rejected and
    followed by a wait, then attempt [attempt + k] either resolves, and the
    new driver is cached and returned, or is the last allowed one and its
    error is thrown. *)
Definition establishment_post (w : World) (s : State) (todo : nat)
    (attempt : Z) (r : Res (option Driver) * State) (k : nat) : Prop :=
  (k < todo)%nat /\
  trace (snd r) =
    trace s ++ backoff_trace k attempt ++ [EvConnect (attempt + Z.of_nat k)] /\
  (forall i, (i < k)%nat ->
     exists e, driver_connect w (n_connect s + i) = ReadyRejected e) /\
  match driver_connect w (n_connect s + k) with
  | ReadyResolved _ =>
      fst r = Ok (Some (n_connect s + k)%nat) /\
      driverInstance (globals (snd r)) = Some (n_connect s + k)%nat
  | ReadyRejected e =>
      S k = todo /\ fst r = Throw e /\
      lastDriverError (globals (snd r)) = Some e /\
      driverInitializing (globals (snd r)) = false
  end.

(** [^\+[0-9]{10,15}$] and [^[a-f0-9]{32}$], spelled out. *)
Definition decimal_char (c : ascii) : Prop :=
  In c (list_ascii_of_string "0123456789").


Definition matches_phone_pattern (p : string) : Prop :=
  exists digits,
    p = String "+"%char digits /\
    (10 <= String.length digits <= 15)%nat /\
    Forall decimal_char (list_ascii_of_string digits).


(** The phone a query text mentions, if any. *)
Definition query_phone (q : Query) : option string :=
  match q with
  | SelectLatestSubmission phone => Some phone
  | SelectWebhookEndpoint _ => None
  | InsertVerificationAttempt _ phone _ _ _ => Some phone
  | UpdateDelivered _ phone => Some phone
  | UpdateNotDelivered phone => Some phone
  | InsertRawSubmission _ phone _ _ _ => Some phone
  end.

(** Every event a computation adds to the log satisfies [phi]. *)
Definition emits {A} (phi : Event -> Prop) (m : M A) : Prop :=
  forall s, exists delta,
    trace (snd (m s)) = trace s ++ delta /\ Forall phi delta.

Definition not_store_event (e : Event) : Prop :=
  match e with EvRequest _ | EvQuery _ => False | _ => True end.

(** What the verification of [phone] may add to the log when the submission
    it found is [od]: queries about that phone, and requests whose body is
    the JSON text of [webhookData] built from [od]. *)
Definition dispatch_event (w : World) (phone source : string)
    (od : option OriginalData) (e : Event) : Prop :=
  match e with
  | EvRequest req =>
      exists o t,
        od = Some o /\
        req_body req =
          JSON_stringify w
            (JObj (webhookData o phone source (toISOString w t)))
  | EvQuery q => forall p, query_phone q = Some p -> p = phone
  | _ => False
  end.

(** The submission a verification of [phone] starting in [s] finds. *)
Definition found_submission (w : World) (phone : string) (s : State)
  : option OriginalData :=
  match fst (findOriginalRawSubmission w phone (snd (now w s))) with
  | Ok od => od
  | _ => None
  end.

(** Every query about a phone is about [p], and every request forwards [p]
    as [verification_phone]. *)
Definition carries_phone (w : World) (p : string) (e : Event) : Prop :=
  match e with
  | EvQuery q => forall p', query_phone q = Some p' -> p' = p
  | EvRequest req =>
      exists data,
        req_body req = JSON_stringify w (JObj data) /\
        data !! "verification_phone" = Some (JStr p)
  | _ => True
  end.

(** ** Scenarios *)

Module Scenario.

Definition phone : string := "+79991234567".
Definition key : string := "0123456789abcdef0123456789abcdef".
Definition endpoint : string := "https://hooks.example.test/lead".

(** The form was submitted at [t0] (milliseconds); the store keeps
    microseconds. *)
Definition t0 : Z := 1700000000000.

Definition form : JsObject :=
  <["Name" := JStr "A"]> (<["Phone" := JStr "+7 999 123-45-67"]>
    (<["COOKIES" := JStr "sid=42"]> ∅)).

Definition submission : RawSubmission :=
  mkRawSubmission "1700000000000" (t0 * 1000) phone "tilda" "<form>"
    (Some key) false false.

Definition db (enabled : bool) : Store :=
  mkStore [submission] [] [mkWebhookEndpoint key (Some endpoint) (Some enabled)].

Definition fresh (d : Store) : State :=
  mkState (mkGlobals None false None false) d 0 0 0 0 [].

Definition connected (d : Store) : State :=
  mkState (mkGlobals (Some 0%nat) true None true) d 0 1 0 0 [].

(** A world in which the clock stands [elapsed] milliseconds after the
    submission, the store works, and the webhook answers [http]. *)
Definition world (connect probe : ReadyOutcome) (elapsed : Z)
    (http : HttpOutcome) : World :=
  mkWorld (fun _ => probe) (fun _ => connect) (fun _ => None)
    (fun _ => (t0 + elapsed) * 1000) (fun _ => t0 + elapsed)
    (fun _ => Some t0) (fun _ => "2023-11-14T22:14:20.000Z")
    (fun _ => http)
    (fun _ => Some (JObj form))
    (fun _ => "<json>") (fun _ => ∅) (fun s => s)
    (fun _ => None) (fun _ => None).

Definition up : ReadyOutcome := ReadyResolved true.
Definition down : ReadyOutcome := ReadyRejected (Error "UNAVAILABLE").

Definition get_event (p : option string) : LambdaEvent :=
  mkLambdaEvent "GET"
    (Some (match p with Some v => <["phone" := v]> ∅ | None => ∅ end))
    None None None None false.

End Scenario.

(** * Properties *)

(** ** Pattern checks *)

Lemma is_digit_decimal c : is_digit c = true -> decimal_char c.
Proof.
  destruct c as [[] [] [] [] [] [] [] []]; cbn; intros H; try discriminate H;
    unfold decimal_char; cbn; tauto.
Qed.


Lemma string_forallb_Forall (p : ascii -> bool) (P : ascii -> Prop) :
  (forall c, p c = true -> P c) ->
  forall s, string_forallb p s = true -> Forall P (list_ascii_of_string s).
Proof.
  intros Hp. induction s as [|c s IH]; cbn; intros H; [constructor|].
  apply andb_true_iff in H as [Hc Hs]. constructor; auto.
Qed.

Lemma isValidPhone_pattern p : isValidPhone p = true -> matches_phone_pattern p.
Proof.
  unfold isValidPhone. destruct (String.eqb p ""); [discriminate|].
  destruct p as [|c digits]; [discriminate|].
  rewrite !andb_true_iff. intros [[[Hc Hd] Hlo] Hhi].
  exists digits. split.
  - f_equal. unfold is_plus in Hc. by apply Ascii.eqb_eq in Hc.
  - split.
    + apply Nat.leb_le in Hlo, Hhi. lia.
    + eapply string_forallb_Forall; [exact is_digit_decimal | exact Hd].
Qed.


Lemma decimal_char_is_digit c : decimal_char c -> is_digit c = true.
Proof.
  unfold decimal_char. cbn.
  intros H. repeat destruct H as [<-|H]; try reflexivity. contradiction.
Qed.

Lemma Forall_string_forallb (p : ascii -> bool) (P : ascii -> Prop) :
  (forall c, P c -> p c = true) ->
  forall s, Forall P (list_ascii_of_string s) -> string_forallb p s = true.
Proof.
  intros Hp. induction s as [|c s IH]; cbn; intros H; [reflexivity|].
  inversion H; subst. apply andb_true_iff. auto.
Qed.

(** The check of [isValidPhone] is the pattern, no more and no less. *)
Lemma isValidPhone_iff p : isValidPhone p = true <-> matches_phone_pattern p.
Proof.
  split; [apply isValidPhone_pattern|].
  intros (digits & -> & [Hlo Hhi] & Hd). unfold isValidPhone.
  rewrite (Forall_string_forallb is_digit decimal_char decimal_char_is_digit
             _ Hd).
  apply Nat.leb_le in Hlo, Hhi. by rewrite Hlo, Hhi.
Qed.

(** [escapeString] leaves a string of digits, [+] and lowercase hex as it
    is. *)
Lemma replace_all_absent c rep s :
  string_forallb (fun x => negb (Ascii.eqb x c)) s = true ->
  replace_all c rep s = s.
Proof.
  induction s as [|x s IH]; cbn; [reflexivity|].
  intros H. apply andb_true_iff in H as [Hx Hs].
  apply negb_true_iff in Hx. rewrite Hx. by rewrite IH.
Qed.

Lemma string_forallb_impl (p q : ascii -> bool) s :
  (forall c, p c = true -> q c = true) ->
  string_forallb p s = true -> string_forallb q s = true.
Proof.
  intros Hpq. induction s as [|x s IH]; cbn; [reflexivity|].
  intros H. apply andb_true_iff in H as [Hx Hs].
  apply andb_true_iff. auto.
Qed.

Lemma escapeString_plain s :
  string_forallb (fun c => is_digit c || is_plus c || is_lower_hex c) s = true ->
  escapeString s = s.
Proof.
  intros H. unfold escapeString.
  assert (Habsent : forall c,
            is_digit c || is_plus c || is_lower_hex c = false ->
            string_forallb (fun x => negb (Ascii.eqb x c)) s = true).
  { intros c Hc. eapply string_forallb_impl; [|exact H].
    intros x Hx. apply negb_true_iff. apply Ascii.eqb_neq.
    intros ->. rewrite Hc in Hx. discriminate. }
  rewrite (replace_all_absent backslash _ s) by (by apply Habsent).
  rewrite (replace_all_absent double_quote _ s) by (by apply Habsent).
  rewrite (replace_all_absent single_quote _ s) by (by apply Habsent).
  rewrite (replace_all_absent line_feed _ s) by (by apply Habsent).
  rewrite (replace_all_absent carriage_return _ s) by (by apply Habsent).
  reflexivity.
Qed.

Lemma escapeString_phone p : isValidPhone p = true -> escapeString p = p.
Proof.
  unfold isValidPhone. destruct (String.eqb p ""); [discriminate|].
  destruct p as [|c digits]; [discriminate|].
  rewrite !andb_true_iff. intros [[[Hc Hd] _] _].
  apply escapeString_plain. cbn. apply andb_true_iff. split.
  - by rewrite Hc, orb_true_r.
  - eapply string_forallb_impl; [|exact Hd]. intros x ->. reflexivity.
Qed.

Lemma escapeString_key k : is_key_format k = true -> escapeString k = k.
Proof.
  unfold is_key_format. rewrite andb_true_iff. intros [Hh _].
  apply escapeString_plain.
  eapply string_forallb_impl; [|exact Hh]. intros x ->. apply orb_true_r.
Qed.

Example normalizePhone_forms :
  normalizePhone (Some (JStr "8 (999) 123-45-67")) = Some "+79991234567" /\
  normalizePhone (Some (JStr "79991234567")) = Some "+79991234567" /\
  normalizePhone (Some (JStr "9991234567")) = Some "+79991234567" /\
  normalizePhone (Some (JNum 79991234567)) = Some "+79991234567" /\
  normalizePhone (Some (JStr "+44 20 7946 0958")) = Some "+442079460958" /\
  normalizePhone (Some (JStr "")) = None /\
  normalizePhone None = None /\
  isValidPhone "+79991234567" = true /\
  isValidPhone "+12345" = false /\
  isValidPhone "+7999123456x" = false /\
  isValidPhone "+1234567890123456" = false.
Proof. vm_compute. repeat split. Qed.

(** ** The verification key *)


Example key_from_query_string :
  let w := Scenario.world Scenario.up Scenario.up 0 HttpTimeout in
  extractVerificationKey w
    (mkLambdaEvent "GET" (Some (<["key" := Scenario.key]> ∅))
       None None None None false) = Some Scenario.key /\
  extractVerificationKey w
    (mkLambdaEvent "GET" (Some (<["key" := "0123456789ABCDEF0123456789ABCDEF"]> ∅))
       None None None None false) = None /\
  extractVerificationKey w
    (mkLambdaEvent "GET" None (Some (<["key" := [""]]> ∅))
       None None None false) = Some "".
Proof. vm_compute. auto. Qed.

(** ** Connection establishment *)

Lemma retry_loop_spec w todo : forall attempt s,
  (1 <= todo)%nat ->
  attempt + Z.of_nat todo = maxRetries + 1 ->
  exists k, establishment_post w s todo attempt (retry_loop w todo attempt s) k.
Proof.
  induction todo as [|todo IH]; intros attempt s Hpos Hsum; [lia|].
  cbn [retry_loop]. unfold bind at 1. unfold connect at 1. cbn [snd fst].
  destruct (driver_connect w (n_connect s)) as [b|e] eqn:Hc.
  - exists 0%nat. unfold establishment_post.
    rewrite Nat.add_0_r, Hc, Z.add_0_r. cbn. repeat split; try lia.
  - unfold bind at 1. cbn [set_globals].
    destruct (Z.eqb attempt maxRetries) eqn:Heq.
    + apply Z.eqb_eq in Heq. exists 0%nat. unfold establishment_post.
      rewrite Nat.add_0_r, Hc, Z.add_0_r. cbn. repeat split; try lia.
    + apply Z.eqb_neq in Heq.
      unfold bind at 1. unfold sleep at 1, emit at 1.
      cbn [globals store n_probe n_connect n_query n_date trace].
      match goal with |- context [retry_loop w todo (attempt + 1) ?s1] =>
        destruct (IH (attempt + 1) s1) as [k Hk]; [lia | lia |] end.
      exists (S k). unfold establishment_post in *. cbn [n_connect trace] in Hk.
      destruct Hk as (Hlt & Htr & Hrej & Hfin).
      split; [lia|]. split.
      { rewrite Htr. cbn [backoff_trace]. rewrite <- !app_assoc. cbn.
        replace (attempt + Z.of_nat (S k)) with (attempt + 1 + Z.of_nat k) by lia.
        reflexivity. }
      split.
      { intros [|i] Hi.
        - rewrite Nat.add_0_r. eauto.
        - replace (n_connect s + S i)%nat with (S (n_connect s) + i)%nat by lia.
          apply Hrej. lia. }
      replace (n_connect s + S k)%nat with (S (n_connect s) + k)%nat by lia.
      destruct (driver_connect w (S (n_connect s) + k)); intuition lia.
Qed.

Lemma connect_attempts_backoff k : forall attempt,
  length (connect_attempts (backoff_trace k attempt)) = k.
Proof.
  induction k as [|k IH]; intros attempt; [reflexivity|].
  cbn. by rewrite IH.
Qed.

(** C8.  A call of [initYDBDriverWithRetry] that finds no ready cached
    driver and no initialization in progress makes at most 5 connection
    attempts; attempts 1..k are rejected and each is followed by a wait of
    [initialDelay * 2^(attempt-1)], so 1000, 2000, 4000 and 8000 ms before
    attempts 2, 3, 4 and 5; the run ends either with attempt k+1 resolving,
    whose driver is cached and returned, or with the fifth attempt rejected,
    and then the error thrown, and kept in [lastDriverError], is that
    attempt's own error. *)
Theorem establishment_backoff w s fuel :
  let s1 := snd (cached_and_ready w s) in
  fst (cached_and_ready w s) = Ok false ->
  driverInitializing (globals s1) = false ->
  let r := initYDBDriverWithRetry w (S fuel) s in
  exists k,
    establishment_post w s1 5 1 r k /\
    (length (connect_attempts (trace (snd r)))
       <= length (connect_attempts (trace s1)) + 5)%nat /\
    (forall i, (i < k)%nat ->
       backoff_trace k 1 !! (2 * i + 1)%nat
       = Some (EvSleep (initialDelay * 2 ^ (Z.of_nat (S i) - 1)))).
Proof.
  intros s1 Hready Hi r.
  assert (Hr : r = retry_loop w 5 1
                     (mkState (set_driverInitializing true (globals s1))
                        (store s1) (n_probe s1) (n_connect s1) (n_query s1)
                        (n_date s1) (trace s1))).
  { subst r s1. cbn [initYDBDriverWithRetry]. unfold bind at 1.
    destruct (cached_and_ready w s) as [[b|e|] s1]; cbn [fst snd] in *;
      try discriminate.
    injection Hready as ->.
    unfold bind, get_globals, set_globals. rewrite Hi. reflexivity. }
  rewrite Hr. clear Hr r.
  match goal with |- context [retry_loop w 5 1 ?s2] =>
    destruct (retry_loop_spec w 5 1 s2) as [k Hk]; [lia | reflexivity |] end.
  exists k. split; [exact Hk|].
  destruct Hk as (Hlt & Htr & _). split.
  - rewrite Htr. cbn [trace]. unfold connect_attempts at 1.
    rewrite !omap_app, !length_app. fold (connect_attempts (trace s1)).
    fold (connect_attempts (backoff_trace k 1)).
    rewrite connect_attempts_backoff. cbn. lia.
  - intros i Hik.
    assert (Hk5 : (k <= 4)%nat) by lia. clear - Hik Hk5.
    destruct k as [|[|[|[|[|k]]]]]; try lia;
      do 4 (destruct i as [|i]; [try reflexivity; lia|]); lia.
Qed.

Lemma establishment_backoff_witness :
  let w := Scenario.world Scenario.down Scenario.down 0 HttpTimeout in
  let s := Scenario.fresh (Scenario.db true) in
  let r := initYDBDriverWithRetry w 1 s in
  exists k,
    establishment_post w s 5 1 r k /\
    (length (connect_attempts (trace (snd r)))
       <= length (connect_attempts (trace s)) + 5)%nat /\
    (forall i, (i < k)%nat ->
       backoff_trace k 1 !! (2 * i + 1)%nat
       = Some (EvSleep (initialDelay * 2 ^ (Z.of_nat (S i) - 1)))).
Proof.
  apply (establishment_backoff
           (Scenario.world Scenario.down Scenario.down 0 HttpTimeout)
           (Scenario.fresh (Scenario.db true)) 0); reflexivity.
Defined.

(** The run in which the store is unreachable: five attempts, the four
    waits between them, and the fifth error thrown. *)
Example exhaustion_run :
  let w := Scenario.world Scenario.down Scenario.down 0 HttpTimeout in
  let r := initYDBDriverWithRetry w 1 (Scenario.fresh (Scenario.db true)) in
  fst r = Throw (Error "UNAVAILABLE") /\
  trace (snd r) =
    [EvConnect 1; EvSleep 1000; EvConnect 2; EvSleep 2000;
     EvConnect 3; EvSleep 4000; EvConnect 4; EvSleep 8000; EvConnect 5] /\
  driverInitializing (globals (snd r)) = false.
Proof. vm_compute. auto. Qed.

(** ** The wait-and-recheck path *)

(** With no cached driver and the flag set, a call only ever waits. *)
Lemma waits_forever w fuel : forall s,
  driverInstance (globals s) = None ->
  driverInitializing (globals s) = true ->
  fst (initYDBDriverWithRetry w fuel s) = Diverge /\
  trace (snd (initYDBDriverWithRetry w fuel s))
    = trace s ++ repeat (EvSleep 1000) fuel /\
  globals (snd (initYDBDriverWithRetry w fuel s)) = globals s.
Proof.
  induction fuel as [|fuel IH]; intros s Hd Hi.
  - cbn. rewrite app_nil_r. auto.
  - cbn [initYDBDriverWithRetry].
    unfold cached_and_ready, bind, get_globals, ret.
    rewrite Hd. cbn -[initYDBDriverWithRetry]. rewrite Hi.
    cbn -[initYDBDriverWithRetry].
    match goal with |- context [initYDBDriverWithRetry w fuel ?s1] =>
      destruct (IH s1) as (H1 & H2 & H3); [exact Hd | exact Hi |] end.
    rewrite H1, H2, H3. cbn. rewrite <- app_assoc. auto.
Qed.

(** A successful establishment returns with the flag still set. *)
Lemma flag_kept_after_success w s fuel b :
  driverInstance (globals s) = None ->
  driverInitializing (globals s) = false ->
  driver_connect w (n_connect s) = ReadyResolved b ->
  fst (initYDBDriverWithRetry w (S fuel) s) = Ok (Some (n_connect s)) /\
  driverInitializing (globals (snd (initYDBDriverWithRetry w (S fuel) s)))
    = true.
Proof.
  intros Hd Hi Hc.
  unfold initYDBDriverWithRetry, cached_and_ready, bind, get_globals, ret.
  rewrite Hd. cbn -[Z.pow Z.mul retry_loop]. rewrite Hi.
  change (Z.to_nat maxRetries) with 5%nat.
  cbn [retry_loop]. unfold bind, connect. cbn -[Z.pow Z.mul retry_loop].
  rewrite Hc. cbn. auto.
Qed.

Lemma cached_and_ready_keeps_flag w s :
  driverInitializing (globals (snd (cached_and_ready w s)))
  = driverInitializing (globals s).
Proof.
  destruct s as [[[d|] fl le hc] db np nc nq nd tr]; [|reflexivity].
  unfold cached_and_ready, isDriverReady, bind, get_globals, ret, probe,
    set_globals. cbn.
  destruct (driver_ready w np); reflexivity.
Qed.

(** While the flag is set, no call clears it: whatever calls run, in
    whatever order, it stays set. *)
Lemma flag_never_cleared_while_set w fuel : forall s,
  driverInitializing (globals s) = true ->
  driverInitializing (globals (snd (getYDBDriver w fuel s))) = true.
Proof.
  assert (Hinit : forall fuel s,
            driverInitializing (globals s) = true ->
            driverInitializing
              (globals (snd (initYDBDriverWithRetry w fuel s))) = true).
  { clear fuel. induction fuel as [|fuel IH]; intros s Hs; [exact Hs|].
    cbn [initYDBDriverWithRetry]. unfold bind at 1.
    pose proof (cached_and_ready_keeps_flag w s) as Hc.
    destruct (cached_and_ready w s) as [[[]|e|] s1]; cbn [fst snd] in *;
      rewrite Hs in Hc; try exact Hc.
    unfold bind, get_globals. rewrite Hc. cbn [sleep emit].
    apply IH. exact Hc. }
  intros s Hs. unfold getYDBDriver, try_catch, bind.
  pose proof (cached_and_ready_keeps_flag w s) as Hc. rewrite Hs in Hc.
  destruct (cached_and_ready w s) as [[[]|e|] s1]; cbn [fst snd] in *;
    try exact Hc.
  specialize (Hinit fuel s1 Hc).
  destruct (initYDBDriverWithRetry w fuel s1) as [[d|e|] s2];
    cbn [fst snd] in *; exact Hinit.
Qed.

(** C4.  The claim fails on the code.  First call: nothing is cached, the
    store is reachable, the first attempt succeeds and the driver is
    returned, but [driverInitializing] is left [true].  The connection is
    then lost (the readiness probe rejects).  Second call: the probe drops
    the cached driver, the flag sends the call to the wait-and-recheck
    path, and it waits there whatever the number of rechecks allowed,
    without ever attempting to connect. *)
Theorem acquire_after_connection_loss_never_returns :
  let w := Scenario.world Scenario.up Scenario.down 0 HttpTimeout in
  let first := getYDBDriver w 1 (Scenario.fresh (Scenario.db true)) in
  fst first = Ok (Some 0%nat) /\
  driverInitializing (globals (snd first)) = true /\
  forall fuel,
    let second := getYDBDriver w fuel (snd first) in
    fst second = Diverge /\
    connect_attempts (trace (snd second)) = connect_attempts (trace (snd first)).
Proof.
  cbv zeta. split; [reflexivity|]. split; [reflexivity|].
  intros fuel.
  set (w := Scenario.world Scenario.up Scenario.down 0 HttpTimeout).
  set (s1 := snd (getYDBDriver w 1 (Scenario.fresh (Scenario.db true)))).
  unfold getYDBDriver, try_catch, bind.
  assert (Hc : cached_and_ready w s1
               = (Ok false,
                  mkState (mkGlobals None true None true) (store s1) 1 1 0 0
                    (trace s1 ++ [EvProbe 1000]))) by reflexivity.
  rewrite Hc.
  match goal with |- context [initYDBDriverWithRetry w fuel ?s2] =>
    destruct (waits_forever w fuel s2) as (H1 & H2 & _);
      [reflexivity | reflexivity |] end.
  destruct (initYDBDriverWithRetry w fuel _) as [r s3] eqn:Hr.
  cbn [fst snd] in *. subst r. split; [reflexivity|].
  cbn [snd]. rewrite H2. cbn [trace].
  unfold connect_attempts. rewrite !omap_app.
  assert (Hrep : forall n, omap (fun e => match e with EvConnect a => Some a | _ => None end)
                   (repeat (EvSleep 1000) n) = []).
  { induction n; [reflexivity|exact IHn]. }
  rewrite Hrep. cbn. rewrite !app_nil_r. reflexivity.
Qed.

(** ** What a computation adds to the log *)

Lemma emits_ret {A} phi (a : A) : emits phi (ret a).
Proof. intros s. exists []. cbn. by rewrite app_nil_r. Qed.

Lemma emits_throw {A} phi e : emits phi (@throw A e).
Proof. intros s. exists []. cbn. by rewrite app_nil_r. Qed.

Lemma emits_diverge {A} phi : emits phi (@diverge A).
Proof. intros s. exists []. cbn. by rewrite app_nil_r. Qed.

Lemma emits_bind {A B} phi (m : M A) (k : A -> M B) :
  emits phi m -> (forall a, emits phi (k a)) -> emits phi (bind m k).
Proof.
  intros Hm Hk s. unfold bind.
  destruct (Hm s) as (d1 & Ht1 & Hf1).
  destruct (m s) as [[a|e|] s1]; cbn [snd] in *.
  - destruct (Hk a s1) as (d2 & Ht2 & Hf2).
    exists (d1 ++ d2). rewrite Ht2, Ht1, app_assoc. split; [done|].
    by apply Forall_app.
  - by exists d1.
  - by exists d1.
Qed.

Lemma emits_try_catch {A} phi (m : M A) (h : JsError -> M A) :
  emits phi m -> (forall e, emits phi (h e)) -> emits phi (try_catch m h).
Proof.
  intros Hm Hh s. unfold try_catch.
  destruct (Hm s) as (d1 & Ht1 & Hf1).
  destruct (m s) as [[a|e|] s1]; cbn [snd] in *.
  - by exists d1.
  - destruct (Hh e s1) as (d2 & Ht2 & Hf2).
    exists (d1 ++ d2). rewrite Ht2, Ht1, app_assoc. split; [done|].
    by apply Forall_app.
  - by exists d1.
Qed.

Lemma emits_emit phi e : phi e -> emits phi (emit e).
Proof. intros He s. exists [e]. cbn. split; [done|]. by constructor. Qed.

Lemma emits_get_globals phi : emits phi get_globals.
Proof. intros s. exists []. cbn. by rewrite app_nil_r. Qed.

Lemma emits_set_globals phi f : emits phi (set_globals f).
Proof. intros s. exists []. cbn. by rewrite app_nil_r. Qed.

Lemma emits_now phi w : emits phi (now w).
Proof. intros s. exists []. cbn. by rewrite app_nil_r. Qed.

Lemma emits_probe phi w t : phi (EvProbe t) -> emits phi (probe w t).
Proof. intros He s. exists [EvProbe t]. cbn. split; [done|]. by constructor. Qed.

Lemma emits_connect phi w a : phi (EvConnect a) -> emits phi (connect w a).
Proof. intros He s. exists [EvConnect a]. cbn. split; [done|]. by constructor. Qed.

Lemma emits_executeQuery phi w q : phi (EvQuery q) -> emits phi (executeQuery w q).
Proof.
  intros He s. exists [EvQuery q]. unfold executeQuery.
  destruct (query_fault w (n_query s)); cbn; (split; [done|]); by constructor.
Qed.

(** One step of a structural proof of [emits]. *)
Ltac emits_step :=
  first
    [ apply emits_ret | apply emits_throw | apply emits_diverge
    | apply emits_get_globals | apply emits_set_globals | apply emits_now
    | apply emits_bind; [|intros ?]
    | apply emits_try_catch; [|intros ?]
    | apply emits_executeQuery
    | apply emits_probe | apply emits_connect | apply emits_emit
    | progress case_match ].

Lemma emits_executeYdbQuery phi w q :
  phi (EvQuery q) -> emits phi (executeYdbQuery w q).
Proof. intros He. unfold executeYdbQuery. repeat emits_step. exact He. Qed.

Lemma emits_findOriginalRawSubmission phi w phone :
  phi (EvQuery (SelectLatestSubmission phone)) ->
  emits phi (findOriginalRawSubmission w phone).
Proof.
  intros He. unfold findOriginalRawSubmission. repeat emits_step; exact He.
Qed.

Lemma emits_getWebhookEndpoint phi w key :
  (forall k, phi (EvQuery (SelectWebhookEndpoint k))) ->
  emits phi (getWebhookEndpoint w key).
Proof.
  intros He. unfold getWebhookEndpoint. repeat emits_step; apply He.
Qed.

Lemma emits_logVerificationAttempt phi w a :
  phi (EvQuery (InsertVerificationAttempt (attemptId a) (la_normalizedPhone a)
                  (la_source a) (verified a) (foundInSubmissions a))) ->
  emits phi (logVerificationAttempt w a).
Proof.
  intros He. unfold logVerificationAttempt.
  repeat first [apply emits_executeYdbQuery | emits_step]; exact He.
Qed.

Lemma emits_isDriverReady w : emits not_store_event (isDriverReady w).
Proof. unfold isDriverReady. repeat emits_step; exact I. Qed.

Lemma emits_cached_and_ready w : emits not_store_event (cached_and_ready w).
Proof.
  unfold cached_and_ready.
  repeat first [apply emits_isDriverReady | emits_step].
Qed.

Lemma emits_return_driverInstance phi : emits phi return_driverInstance.
Proof. unfold return_driverInstance. repeat emits_step. Qed.

Lemma emits_retry_loop w todo : forall attempt,
  emits not_store_event (retry_loop w todo attempt).
Proof.
  induction todo as [|todo IH]; intros attempt; cbn [retry_loop].
  - repeat emits_step.
  - unfold startHealthChecks, sleep.
    repeat first [apply IH | apply emits_return_driverInstance | emits_step];
      exact I.
Qed.

Lemma emits_initYDBDriverWithRetry w fuel :
  emits not_store_event (initYDBDriverWithRetry w fuel).
Proof.
  induction fuel as [|fuel IH]; cbn [initYDBDriverWithRetry].
  - apply emits_diverge.
  - unfold sleep.
    repeat first [apply IH | apply emits_retry_loop
                 | apply emits_cached_and_ready
                 | apply emits_return_driverInstance | emits_step]; exact I.
Qed.

Lemma emits_getYDBDriver w fuel : emits not_store_event (getYDBDriver w fuel).
Proof.
  unfold getYDBDriver.
  repeat first [apply emits_initYDBDriverWithRetry
               | apply emits_cached_and_ready
               | apply emits_return_driverInstance | emits_step].
Qed.

(** ** Delivery *)

Ltac exec :=
  cbv [handleVerification log_and_dispatch deliver_and_record
       findOriginalRawSubmission getWebhookEndpoint logVerificationAttempt
       sendToWebhookWithCookies executeYdbQuery executeQuery now emit
       bind try_catch ret throw type_error fst snd
       globals store n_probe n_connect n_query n_date trace].

Lemma requests_app t1 t2 : requests (t1 ++ t2) = requests t1 ++ requests t2.
Proof. apply omap_app. Qed.

Lemma send_classified w url data cookies s :
  String.eqb url "" = false ->
  let r := sendToWebhookWithCookies w url data cookies s in
  exists req,
    trace (snd r) = trace s ++ [EvRequest req] /\
    req_url req = url /\ req_method req = "POST" /\ req_timeout req = 10000 /\
    req_body req = JSON_stringify w (JObj data) /\
    (forall c, cookies = Some (JStr c) -> c <> "" ->
       In ("Cookie", JStr c) (req_headers req)) /\
    match https_request w req with
    | HttpResponse code text =>
        if Z.leb 200 code && Z.ltb code 300 then fst r = Ok text
        else fst r = Throw (mkError ("Webhook responded with status "
                                       +:+ string_of_Z code)
                              (Some (code, text)))
    | HttpError e => fst r = Throw e
    | HttpTimeout => fst r = Throw (Error "Request timeout")
    end.
Proof.
  intros Hurl. destruct s as [g db np nc nq nd tr]. cbv zeta. exec.
  rewrite Hurl.
  match goal with |- context [EvRequest ?r] => exists r end.
  split.
  { destruct (https_request w _) as [code text|e|]; [|done|done].
    by destruct (Z.leb 200 code && Z.ltb code 300). }
  do 4 (split; [reflexivity|]).
  split.
  { intros c -> Hc. cbn [truthy req_headers].
    destruct (String.eqb_spec c ""); [contradiction|]. cbn [negb].
    apply in_or_app. right. by left. }
  destruct (https_request w _) as [code text|e|]; [|done|done].
  by destruct (Z.leb 200 code && Z.ltb code 300).
Qed.

(** C7.  A delivery to a non-empty URL makes exactly one outbound POST, with
    a 10 s timeout and the JSON text of the payload as body.  It succeeds
    exactly when a response arrives whose status code lies in [200, 300);
    any other status code throws an error carrying that status and the
    response body, a transport error is thrown as it is, and a timeout
    throws "Request timeout".  A non-empty cookie string is sent as the
    [Cookie] header, and the dispatch step passes the [COOKIES] field of the
    raw payload, so such a field reaches the header; the dispatch step makes
    that one request and no other, whatever its outcome. *)
Theorem delivery_single_attempt_classified w url data cookies s :
  url <> "" ->
  let r := sendToWebhookWithCookies w url data cookies s in
  (exists req,
     trace (snd r) = trace s ++ [EvRequest req] /\
     req_url req = url /\ req_method req = "POST" /\
     req_timeout req = 10000 /\
     req_body req = JSON_stringify w (JObj data) /\
     (forall c, cookies = Some (JStr c) -> c <> "" ->
        In ("Cookie", JStr c) (req_headers req)) /\
     ((exists text, fst r = Ok text) <->
      (exists code text,
         https_request w req = HttpResponse code text /\ 200 <= code < 300)) /\
     (forall code text,
        https_request w req = HttpResponse code text ->
        ~ 200 <= code < 300 ->
        exists e, fst r = Throw e /\ response e = Some (code, text)) /\
     (forall e, https_request w req = HttpError e -> fst r = Throw e) /\
     (https_request w req = HttpTimeout ->
      fst r = Throw (Error "Request timeout"))) /\
  (forall phone source od fk o c,
     raw_data od = JObj o -> o !! "COOKIES" = Some (JStr c) -> c <> "" ->
     exists req,
       requests (trace (snd (deliver_and_record w phone source od fk url s)))
         = requests (trace s) ++ [req] /\
       req_url req = url /\
       In ("Cookie", JStr c) (req_headers req)).
Proof.
  intros Hurl.
  assert (Hu : String.eqb url "" = false) by by apply String.eqb_neq.
  cbv zeta. split.
  - destruct (send_classified w url data cookies s Hu)
      as (req & Ht & H1 & H2 & H3 & H4 & H5 & H6).
    exists req. do 6 (split; [assumption|]).
    destruct (https_request w req) as [code text|e|] eqn:Hh.
    + destruct (Z.leb 200 code && Z.ltb code 300) eqn:Hc.
      * apply andb_true_iff in Hc as [Hlo Hhi].
        apply Z.leb_le in Hlo. apply Z.ltb_lt in Hhi.
        split; [|split; [|split]].
        -- split; [intros _; exists code, text; auto | intros _; eauto].
        -- intros c t [= <- <-] Hn. lia.
        -- discriminate.
        -- discriminate.
      * assert (Hn : ~ 200 <= code < 300).
        { intros [Hlo Hhi]. apply Z.leb_le in Hlo. apply Z.ltb_lt in Hhi.
          rewrite Hlo, Hhi in Hc. discriminate. }
        split; [|split; [|split]].
        -- split.
           ++ intros [t Ht']. rewrite H6 in Ht'. discriminate.
           ++ intros (c & t & [= <- <-] & Hr). contradiction.
        -- intros c t [= <- <-] _. eexists. split; [exact H6|reflexivity].
        -- discriminate.
        -- discriminate.
    + split; [|split; [|split]].
      * split.
        -- intros [t Ht']. rewrite H6 in Ht'. discriminate.
        -- intros (c & t & Hd & _). discriminate.
      * discriminate.
      * by intros e' [= <-].
      * discriminate.
    + split; [|split; [|split]].
      * split.
        -- intros [t Ht']. rewrite H6 in Ht'. discriminate.
        -- intros (c & t & Hd & _). discriminate.
      * discriminate.
      * discriminate.
      * done.
  - intros phone source od fk o c Hraw Hck Hc.
    destruct s as [g db np nc nq nd tr]. exec.
    rewrite Hraw. cbv [js_get]. rewrite Hck. rewrite Hu.
    cbn [truthy]. destruct (String.eqb_spec c ""); [contradiction|].
    cbn [negb].
    match goal with |- context [EvRequest ?r] => exists r end.
    split; [|split; [reflexivity|]].
    + destruct (https_request w _) as [code text|e|];
        [destruct (Z.leb 200 code && Z.ltb code 300)|..];
        repeat (destruct (query_fault w _));
        rewrite ?requests_app; cbn; rewrite ?app_nil_r; reflexivity.
    + cbn. auto.
Qed.

Lemma delivery_single_attempt_classified_witness :
  let w := Scenario.world Scenario.up Scenario.up 60000
             (HttpResponse 204 "done") in
  let s := Scenario.connected (Scenario.db true) in
  let r := sendToWebhookWithCookies w Scenario.endpoint Scenario.form
             (Some (JStr "sid=42")) s in
  Scenario.endpoint <> "" /\
  fst r = Ok "done" /\
  exists req,
    trace (snd r) = trace s ++ [EvRequest req] /\
    In ("Cookie", JStr "sid=42") (req_headers req).
Proof.
  assert (Hurl : Scenario.endpoint <> "") by discriminate.
  split; [exact Hurl|]. split; [reflexivity|].
  destruct (proj1 (delivery_single_attempt_classified
                     (Scenario.world Scenario.up Scenario.up 60000
                        (HttpResponse 204 "done"))
                     Scenario.endpoint Scenario.form (Some (JStr "sid=42"))
                     (Scenario.connected (Scenario.db true)) Hurl))
    as (req & Ht & _ & _ & _ & _ & Hcookie & _).
  exists req. split; [exact Ht|].
  apply (Hcookie "sid=42"); [reflexivity|discriminate].
Defined.

(** ** The delivered payload *)

Lemma webhookData_lookup od phone source ts k :
  webhookData od phone source ts !! k =
    if decide ("verified" = k) then Some (JBool true)
    else if decide ("verification_timestamp" = k) then Some (JStr ts)
    else if decide ("verification_source" = k) then Some (JStr source)
    else if decide ("verification_phone" = k) then Some (JStr phone)
    else js_spread (raw_data od) !! k.
Proof. unfold webhookData. by rewrite !lookup_insert. Qed.

Lemma emits_sendToWebhookWithCookies phi w url data cookies :
  (forall req, req_body req = JSON_stringify w (JObj data) ->
               phi (EvRequest req)) ->
  emits phi (sendToWebhookWithCookies w url data cookies).
Proof.
  intros He. unfold sendToWebhookWithCookies.
  repeat emits_step; apply He; reflexivity.
Qed.

Lemma emits_deliver_and_record w phone source od fk url :
  emits (dispatch_event w phone source (Some od))
        (deliver_and_record w phone source od fk url).
Proof.
  unfold deliver_and_record.
  repeat first [ apply emits_executeYdbQuery
               | apply emits_sendToWebhookWithCookies
               | emits_step ].
  all: try (intros p [= <-]; reflexivity).
  intros req Hreq. cbn. eauto.
Qed.

Lemma emits_log_and_dispatch w aid phone source key od :
  emits (dispatch_event w phone source od)
        (log_and_dispatch w aid phone source key od).
Proof.
  unfold log_and_dispatch.
  repeat first [ apply emits_logVerificationAttempt
               | apply emits_getWebhookEndpoint
               | apply emits_deliver_and_record
               | emits_step ].
  - intros p [= <-]; reflexivity.
  - intros k p [=].
Qed.

Lemma handleVerification_events w phone source key s :
  exists delta,
    trace (snd (handleVerification w phone source key s)) = trace s ++ delta /\
    Forall (dispatch_event w phone source (found_submission w phone s)) delta.
Proof.
  unfold handleVerification, found_submission.
  unfold bind at 1. cbn [now fst snd].
  set (s1 := mkState _ _ _ _ _ _ _).
  change (trace s) with (trace s1).
  unfold bind at 1.
  destruct (emits_findOriginalRawSubmission
              (dispatch_event w phone source None) w phone
              ltac:(intros p [= <-]; reflexivity) s1) as (d1 & Ht1 & Hf1).
  destruct (findOriginalRawSubmission w phone s1) as [[od|e|] s2];
    cbn [fst snd] in *; [| by exists d1 | by exists d1].
  assert (Hf1' : Forall (dispatch_event w phone source od) d1).
  { eapply Forall_impl; [exact Hf1|]. intros [] He; cbn in *; try done.
    by destruct He as (? & ? & ? & _). }
  assert (Hrest : emits (dispatch_event w phone source od)
            (log_and_dispatch w (string_of_Z (Date_now w (n_date s)))
               phone source key od)) by apply emits_log_and_dispatch.
  destruct od as [o|].
  - unfold bind at 1. cbn [now fst snd].
    match goal with |- context [if ?c then _ else _] => destruct c end.
    + match goal with |- context [bind ?m ?k ?s3] =>
        destruct (emits_bind (dispatch_event w phone source (Some o)) m k
                    ltac:(apply emits_logVerificationAttempt;
                          intros p [= <-]; reflexivity)
                    ltac:(intros ?; apply emits_ret) s3) as (d2 & Ht2 & Hf2)
      end.
      exists (d1 ++ d2). cbn [trace] in Ht2. rewrite Ht2, Ht1, app_assoc.
      split; [done|]. by apply Forall_app.
    + match goal with |- context [log_and_dispatch _ _ _ _ _ _ ?s3] =>
        destruct (Hrest s3) as (d2 & Ht2 & Hf2) end.
      exists (d1 ++ d2). cbn [trace] in Ht2. rewrite Ht2, Ht1, app_assoc.
      split; [done|]. by apply Forall_app.
  - destruct (Hrest s2) as (d2 & Ht2 & Hf2).
    exists (d1 ++ d2). rewrite Ht2, Ht1, app_assoc.
    split; [done|]. by apply Forall_app.
Qed.



(** A delivery in full: the form fields arrive unchanged next to the four
    verification fields, and a [verified] field of the form would be
    overridden. *)
Example delivered_payload_run :
  let w := Scenario.world Scenario.up Scenario.up 60000
             (HttpResponse 200 "ok") in
  let s := Scenario.connected (Scenario.db true) in
  let r := handleVerification w Scenario.phone "telegram" None s in
  let od := mkOriginalData (JObj Scenario.form) (Some Scenario.key)
              (Some Scenario.t0) in
  let data := webhookData od Scenario.phone "telegram"
                "2023-11-14T22:14:20.000Z" in
  found_submission w Scenario.phone s = Some od /\
  List.map req_body (requests (trace (snd r))) = [JSON_stringify w (JObj data)] /\
  data !! "Name" = Some (JStr "A") /\
  data !! "COOKIES" = Some (JStr "sid=42") /\
  data !! "verification_phone" = Some (JStr Scenario.phone) /\
  webhookData (mkOriginalData (JObj (<["verified" := JBool false]> ∅)) None None)
    Scenario.phone "telegram" "now" !! "verified" = Some (JBool true).
Proof. vm_compute. repeat split. Qed.

(** ** The phone gate *)

Lemma not_store_event_carries w p e : not_store_event e -> carries_phone w p e.
Proof. destruct e; cbn; tauto. Qed.

Lemma dispatch_event_carries w p source od e :
  dispatch_event w p source od e -> carries_phone w p e.
Proof.
  destruct e; cbn; try tauto.
  intros (o & t & _ & Hb). eexists. split; [exact Hb|].
  by rewrite webhookData_lookup.
Qed.

Lemma emits_handleVerification w p source key :
  emits (carries_phone w p) (handleVerification w p source key).
Proof.
  intros s.
  destruct (handleVerification_events w p source key s) as (d & Ht & Hf).
  exists d. split; [exact Ht|].
  eapply Forall_impl; [exact Hf|]. intros e. apply dispatch_event_carries.
Qed.

Lemma emits_handleTildaSubmission w ev data p key :
  emits (carries_phone w p) (handleTildaSubmission w ev data p key).
Proof.
  unfold handleTildaSubmission.
  repeat first [apply emits_executeYdbQuery | emits_step].
  all: intros p' [= <-]; reflexivity.
Qed.

(** The handler up to its outer [catch]. *)
Lemma handler_body_events w fuel ev s (m : M Response) :
  m = (let* driver :=
         try_catch (getYDBDriver w fuel)
           (fun _ => throw (Error "Database service unavailable")) in
       let verificationKey := extractVerificationKey w ev in
       match parse_request w ev with
       | None => throw (Error "Invalid request data format")
       | Some parsed =>
           match normalizePhone (p_phone parsed) with
           | None => throw (Error "Invalid phone format")
           | Some normalizedPhone =>
               if negb (isValidPhone normalizedPhone) then
                 throw (Error "Invalid phone format")
               else if String.eqb (p_source parsed) "telegram"
                       || String.eqb (p_source parsed) "whatsapp" then
                 handleVerification w normalizedPhone (p_source parsed)
                   verificationKey
               else if String.eqb (p_source parsed) "tilda" then
                 handleTildaSubmission w ev (parsedData parsed)
                   normalizedPhone verificationKey
               else
                 throw (Error ("Unsupported source: " +:+ p_source parsed))
           end
       end) ->
  exists delta,
    trace (snd (m s)) = trace s ++ delta /\
    (Forall not_store_event delta \/
     exists parsed p,
       parse_request w ev = Some parsed /\
       normalizePhone (p_phone parsed) = Some p /\
       matches_phone_pattern p /\
       Forall (carries_phone w p) delta).
Proof.
  intros ->. unfold bind at 1.
  assert (Hconn : emits not_store_event
            (try_catch (getYDBDriver w fuel)
               (fun _ => throw (Error "Database service unavailable")))).
  { apply emits_try_catch; [apply emits_getYDBDriver|intros; apply emits_throw]. }
  destruct (Hconn s) as (d1 & Ht1 & Hf1).
  destruct (try_catch (getYDBDriver w fuel) _ s) as [[d|e|] s1];
    cbn [fst snd] in *; [| exists d1; auto | exists d1; auto].
  cbv zeta.
  destruct (parse_request w ev) as [parsed|] eqn:Hparse;
    [| exists d1; cbn; auto].
  destruct (normalizePhone (p_phone parsed)) as [p|] eqn:Hnorm;
    [| exists d1; cbn; auto].
  destruct (isValidPhone p) eqn:Hvalid; cbn [negb];
    [| exists d1; cbn; auto].
  assert (Hpat : matches_phone_pattern p) by by apply isValidPhone_pattern.
  assert (Hf1' : Forall (carries_phone w p) d1).
  { eapply Forall_impl; [exact Hf1|]. intros e. apply not_store_event_carries. }
  destruct (String.eqb (p_source parsed) "telegram"
            || String.eqb (p_source parsed) "whatsapp").
  { destruct (emits_handleVerification w p (p_source parsed)
                (extractVerificationKey w ev) s1) as (d2 & Ht2 & Hf2).
    exists (d1 ++ d2). rewrite Ht2, Ht1, app_assoc. split; [done|].
    right. exists parsed, p. repeat split; try done. by apply Forall_app. }
  destruct (String.eqb (p_source parsed) "tilda").
  { destruct (emits_handleTildaSubmission w ev (parsedData parsed) p
                (extractVerificationKey w ev) s1) as (d2 & Ht2 & Hf2).
    exists (d1 ++ d2). rewrite Ht2, Ht1, app_assoc. split; [done|].
    right. exists parsed, p. repeat split; try done. by apply Forall_app. }
  exists d1. cbn. auto.
Qed.

(** C10, as the code has it.  An event passes three earlier stages before
    its phone is looked at: an OPTIONS request is answered at once, a
    failure to acquire the connection is answered "service unavailable", and
    a body that does not parse is answered "Invalid request data format".
    For an event past these stages whose normalized phone does not match
    [^\+[0-9]{10,15}$] the response is the "Invalid phone format" error and
    the invocation has made no store query and no delivery.  For every event
    whatsoever, if the invocation makes any store query or delivery, then
    the normalized phone matches the pattern, every query that names a
    phone names that phone, and every delivered payload carries it as
    [verification_phone]. *)
Theorem phone_gate w fuel ev s :
  let r := handler w fuel ev s in
  (exists delta,
     trace (snd r) = trace s ++ delta /\
     (Forall not_store_event delta \/
      exists parsed p,
        parse_request w ev = Some parsed /\
        normalizePhone (p_phone parsed) = Some p /\
        matches_phone_pattern p /\
        Forall (carries_phone w p) delta)) /\
  (httpMethod ev <> "OPTIONS" ->
   (exists d, fst (getYDBDriver w fuel s) = Ok d) ->
   forall parsed,
     parse_request w ev = Some parsed ->
     (forall p, normalizePhone (p_phone parsed) = Some p ->
                ~ matches_phone_pattern p) ->
     fst r = Ok (processing_error_response (Error "Invalid phone format")) /\
     exists delta,
       trace (snd r) = trace s ++ delta /\ Forall not_store_event delta).
Proof.
  cbv zeta. split.
  - unfold handler. destruct (String.eqb (httpMethod ev) "OPTIONS").
    { exists []. cbn. rewrite app_nil_r. auto. }
    unfold try_catch at 1.
    match goal with |- context [match ?m s with _ => _ end] =>
      destruct (handler_body_events w fuel ev s m eq_refl) as (d & Ht & Hd);
      destruct (m s) as [[resp|e|] s1]
    end; cbn [fst snd] in *; [by exists d | | by exists d].
    exists d. split; [|exact Hd].
    by destruct (_ || _).
  - intros Hopt [d Hd] parsed Hparse Hbad.
    destruct (emits_getYDBDriver w fuel s) as (d1 & Ht1 & Hf1).
    destruct (getYDBDriver w fuel s) as [[d'|e|] s1] eqn:Hg;
      cbn [fst snd] in *; try discriminate.
    assert (Hrun : handler w fuel ev s
                   = (Ok (processing_error_response
                            (Error "Invalid phone format")), s1)).
    { unfold handler.
      destruct (String.eqb_spec (httpMethod ev) "OPTIONS"); [contradiction|].
      unfold try_catch, bind. rewrite Hg, Hparse.
      destruct (normalizePhone (p_phone parsed)) as [p|] eqn:Hnorm;
        [|reflexivity].
      destruct (isValidPhone p) eqn:Hvalid; [|reflexivity].
      exfalso. apply (Hbad p eq_refl). by apply isValidPhone_pattern. }
    rewrite Hrun. cbn [fst snd]. split; [reflexivity|]. by exists d1.
Qed.

Lemma phone_gate_witness :
  let w := Scenario.world Scenario.up Scenario.up 0 HttpTimeout in
  let s := Scenario.fresh (Scenario.db true) in
  let r := handler w 1 (Scenario.get_event (Some "12345")) s in
  fst r = Ok (processing_error_response (Error "Invalid phone format")) /\
  exists delta,
    trace (snd r) = trace s ++ delta /\ Forall not_store_event delta.
Proof.
  refine (proj2 (phone_gate
                   (Scenario.world Scenario.up Scenario.up 0 HttpTimeout) 1
                   (Scenario.get_event (Some "12345"))
                   (Scenario.fresh (Scenario.db true)))
            _ _ (mkParsed (Some (JStr "12345")) "telegram" (JObj ∅)) _ _).
  - discriminate.
  - exists (Some 0%nat). reflexivity.
  - reflexivity.
  - intros p Hnorm (digits & Hdig & Hlen & _).
    vm_compute in Hnorm. injection Hnorm as <-.
    injection Hdig as <-. cbn in Hlen. lia.
Defined.

(** C10 as stated fails: with the store unreachable, an event whose phone
    normalizes to ["+12345"] is answered 503 "Service temporarily
    unavailable", which is neither a matching phone nor the "Invalid phone
    format" response. *)
Lemma invalid_phone_not_always_reported :
  let w := Scenario.world Scenario.down Scenario.down 0 HttpTimeout in
  let ev := Scenario.get_event (Some "12345") in
  let r := handler w 1 ev (Scenario.fresh (Scenario.db true)) in
  fst r = Ok service_unavailable_response /\
  ~ ((exists parsed p,
        parse_request w ev = Some parsed /\
        normalizePhone (p_phone parsed) = Some p /\
        matches_phone_pattern p)
     \/ fst r = Ok (processing_error_response (Error "Invalid phone format"))).
Proof.
  cbv zeta. split; [vm_compute; reflexivity|].
  intros [(parsed & p & Hparse & Hnorm & Hpat) | Hresp].
  - vm_compute in Hparse. injection Hparse as <-.
    vm_compute in Hnorm. injection Hnorm as <-.
    destruct Hpat as (digits & [= <-] & Hlen & _). cbn in Hlen. lia.
  - vm_compute in Hresp. discriminate Hresp.
Qed.

(** ** Outcomes of a verification *)

(** Closes a goal about the final state of a symbolic run. *)
Ltac finish_run :=
  cbn;
  repeat match goal with
         | |- _ /\ _ => split
         | |- exists _, _ => eexists
         end;
  unfold requests, queries; rewrite ?omap_app; cbn; rewrite ?app_nil_r;
  reflexivity.

(** The window test in milliseconds. *)
Lemma window_expired_ms c t :
  window_expired (timeDiffMinutes c (Some t)) = true <-> 300000 < c - t.
Proof.
  unfold window_expired, timeDiffMinutes, verification_window_minutes.
  unfold Qcompare, Qdiv, Qmult, Qinv, inject_Z. cbn [Qnum Qden].
  change (1000 * 60) with 60000. cbn [Qnum Qden].
  change (5 * Z.pos (1 * 60000)) with 300000.
  destruct (Z.compare_spec 300000 ((c - t) * 1 * 1)); split; intros;
    try lia; try discriminate; try reflexivity.
Qed.

Lemma window_open_ms c t :
  c - t <= 300000 -> window_expired (timeDiffMinutes c (Some t)) = false.
Proof.
  intros H. destruct (window_expired _) eqn:He; [|reflexivity].
  apply window_expired_ms in He. lia.
Qed.




(** *** No submission for the phone *)



(** *** The window has expired *)

(** The [status] argument of [logVerificationAttempt] does not reach the
    query. *)
Lemma logVerificationAttempt_ignores_status w aid phone source v f st s :
  logVerificationAttempt w (mkAttemptArgs aid phone source v f st) s
  = logVerificationAttempt w (mkAttemptArgs aid phone source v f None) s.
Proof. reflexivity. Qed.

(** The part of C3 that holds for every expired event: when the latest
    submission of the phone is more than 300000 ms old and the store
    executes its queries, the answer is "Verification window expired", one
    attempt row is appended with [found_in_submissions = true] and
    [verified = false], no submission row changes and no delivery is
    attempted. *)
Lemma expired_event_outcome w phone source key s sub t :
  phone <> "" ->
  (forall n, query_fault w n = None) ->
  latest None (rows_of_phone phone (raw_submissions (store s))) = Some sub ->
  Date_parse w (string_of_Z (rs_timestamp sub)) = Some t ->
  300000 < Date_now w (S (n_date s)) - t ->
  let r := handleVerification w phone source key s in
  fst r = Ok (timeout_response phone) /\
  requests (trace (snd r)) = requests (trace s) /\
  raw_submissions (store (snd r)) = raw_submissions (store s) /\
  exists ts,
    incoming_verification_attempts (store (snd r)) =
      incoming_verification_attempts (store s) ++
      [mkVerificationAttempt (string_of_Z (Date_now w (n_date s))) ts
         phone source false true].
Proof.
  intros Hphone Hok Hlatest Hdate Hwin.
  destruct s as [g db np nc nq nd tr].
  cbn [store n_date raw_submissions webhook_endpoints] in *.
  apply String.eqb_neq in Hphone. apply window_expired_ms in Hwin.
  cbv zeta. exec. rewrite Hphone, !Hok.
  cbv [run_query fst snd]. rewrite Hlatest.
  cbn [lookup list_lookup uint64Value uint64_cell od_timestamp].
  rewrite Hdate, Hwin.
  exec. rewrite !Hok. cbv [run_query fst snd]. finish_run.
Qed.

Example expired_event_outcome_applies :
  let w := Scenario.world Scenario.up Scenario.up 400000 HttpTimeout in
  let s := Scenario.connected (Scenario.db true) in
  fst (handleVerification w Scenario.phone "whatsapp" (Some Scenario.key) s)
  = Ok (timeout_response Scenario.phone).
Proof.
  apply (expired_event_outcome
           (Scenario.world Scenario.up Scenario.up 400000 HttpTimeout)
           Scenario.phone "whatsapp" (Some Scenario.key)
           (Scenario.connected (Scenario.db true))
           Scenario.submission Scenario.t0);
    try reflexivity; discriminate.
Qed.


(** *** The delivery fails *)

Lemma update_not_delivered_keeps_verified phone rows :
  List.map rs_phone_verified (update_where_phone phone set_not_delivered rows)
  = List.map rs_phone_verified rows.
Proof.
  unfold update_where_phone. rewrite List.map_map.
  apply List.map_ext. intros r. by destruct (String.eqb (rs_phone r) phone).
Qed.

(** The part of C1 that holds for every failed delivery: when the latest
    submission is within the window, the effective key names an enabled
    endpoint with a URL, the store executes its queries and the webhook does
    not answer 2xx, then after the attempt row and the endpoint lookup
    exactly one update is issued, [SET webhook_sent = false] for the phone;
    the response reports [verified: true, webhook_sent: false]; and every
    row keeps the [phone_verified] it had. *)
Lemma failed_delivery_outcome w phone source key s sub t k ep url :
  phone <> "" ->
  (forall n, query_fault w n = None) ->
  latest None (rows_of_phone phone (raw_submissions (store s))) = Some sub ->
  Date_parse w (string_of_Z (rs_timestamp sub)) = Some t ->
  Date_now w (S (n_date s)) - t <= 300000 ->
  js_or truthy_str key (rs_verification_key sub) = Some k -> k <> "" ->
  List.find (fun e => String.eqb (we_key e) k) (webhook_endpoints (store s))
    = Some ep ->
  we_endpoint_url ep = Some url -> url <> "" -> we_enabled ep = Some true ->
  (forall req,
     match https_request w req with
     | HttpResponse code _ => Z.leb 200 code && Z.ltb code 300 = false
     | _ => True
     end) ->
  let r := handleVerification w phone source key s in
  (exists msg,
     fst r =
       Ok (mkResponse responseConfig 200
             (BodyJson
                [("status", JStr "error");
                 ("message", JStr "Verification completed but webhook failed");
                 ("phone", JStr phone);
                 ("verified", JBool true);
                 ("webhook_sent", JBool false);
                 ("error", JStr msg)]))) /\
  queries (trace (snd r)) =
    queries (trace s) ++
    [SelectLatestSubmission phone;
     InsertVerificationAttempt (string_of_Z (Date_now w (n_date s)))
       phone source false true;
     SelectWebhookEndpoint k;
     UpdateNotDelivered phone] /\
  (length (requests (trace (snd r)))
     <= length (requests (trace s)) + 1)%nat /\
  raw_submissions (store (snd r))
    = update_where_phone phone set_not_delivered (raw_submissions (store s)) /\
  List.map rs_phone_verified (raw_submissions (store (snd r)))
    = List.map rs_phone_verified (raw_submissions (store s)).
Proof.
  intros Hphone Hok Hlatest Hdate Hwin Hkey Hk Hfind Hurl Hurl' Hen Hfail.
  destruct s as [g db np nc nq nd tr].
  cbn [store n_date raw_submissions webhook_endpoints] in *.
  apply String.eqb_neq in Hphone, Hurl', Hk.
  assert (Hfk : js_or truthy_str key
                  (text_or_bytes (opt_cell text_cell (rs_verification_key sub)))
                = Some k).
  { revert Hkey. unfold js_or, text_or_bytes, js_or.
    destruct key as [k1|]; cbn.
    - destruct (String.eqb k1 "") eqn:Hk1; cbn; [|done].
      intros ->. cbn. by rewrite Hk.
    - intros ->. cbn. by rewrite Hk. }
  cbv zeta. exec. rewrite Hphone, !Hok.
  cbv [run_query fst snd]. rewrite Hlatest.
  cbn [lookup list_lookup uint64Value uint64_cell od_timestamp].
  rewrite Hdate, (window_open_ms _ _ Hwin).
  exec. rewrite !Hok. cbv [run_query fst snd]. exec.
  cbn [verification_key]. rewrite Hfk.
  cbn [truthy_str default]. rewrite Hk. cbn [negb]. cbv beta iota.
  rewrite !Hok. cbv beta iota.
  cbn [raw_submissions incoming_verification_attempts webhook_endpoints
       attemptId la_normalizedPhone la_source verified foundInSubmissions].
  cbv [id]. rewrite Hfind. rewrite Hurl, Hen.
  cbn [lookup list_lookup opt_cell text_cell bool_cell textValue boolValue
       default negb truthy_str].
  rewrite Hurl'. cbn [negb]. cbv beta iota.
  match goal with |- context [js_get ?v "COOKIES"] =>
    destruct (js_get v "COOKIES") as [cookies|] end.
  - cbv beta iota.
    match goal with |- context [https_request w ?req] =>
      pose proof (Hfail req) as Hf;
      destruct (https_request w req) as [code text|e|] end;
      [rewrite Hf|..]; cbv beta iota; rewrite ?Hok; cbv beta iota;
      cbn [fst snd trace store raw_submissions];
      (split; [eexists; reflexivity|]);
      (split; [unfold queries; rewrite !omap_app; cbn;
               rewrite <- !app_assoc; reflexivity|]);
      (split; [unfold requests; rewrite !omap_app, !length_app; cbn; lia|]);
      (split; [reflexivity|apply update_not_delivered_keeps_verified]).
  - cbv beta iota. rewrite ?Hok. cbv beta iota.
    cbn [fst snd trace store raw_submissions].
    (split; [eexists; reflexivity|]);
    (split; [unfold queries; rewrite !omap_app; cbn;
             rewrite <- !app_assoc; reflexivity|]);
    (split; [unfold requests; rewrite !omap_app, !length_app; cbn; lia|]);
    (split; [reflexivity|apply update_not_delivered_keeps_verified]).
Qed.

Example failed_delivery_outcome_applies :
  let w := Scenario.world Scenario.up Scenario.up 60000 HttpTimeout in
  let s := Scenario.connected (Scenario.db true) in
  let r := handleVerification w Scenario.phone "telegram" None s in
  raw_submissions (store (snd r))
  = update_where_phone Scenario.phone set_not_delivered
      (raw_submissions (store s)).
Proof.
  apply (failed_delivery_outcome
           (Scenario.world Scenario.up Scenario.up 60000 HttpTimeout)
           Scenario.phone "telegram" None
           (Scenario.connected (Scenario.db true))
           Scenario.submission Scenario.t0 Scenario.key
           (mkWebhookEndpoint Scenario.key (Some Scenario.endpoint) (Some true))
           Scenario.endpoint);
    try reflexivity; try discriminate; intros req; exact I.
Qed.

(** C1.  The claim fails on the code.  The submission is stored with
    [phone_verified = false]; the verification arrives 60 s later, the
    endpoint is enabled, and the webhook answers 500.  The response says
    [verified: true, webhook_sent: false], and exactly one flag update is
    issued, but it is [SET webhook_sent = false] alone: the row still has
    [phone_verified = false] afterwards.  That update never changes
    [phone_verified] on any row. *)
Theorem failed_delivery_leaves_phone_unverified :
  let w := Scenario.world Scenario.up Scenario.up 60000
             (HttpResponse 500 "oops") in
  let s := Scenario.connected (Scenario.db true) in
  let r := handleVerification w Scenario.phone "telegram" None s in
  fst r =
    Ok (mkResponse responseConfig 200
          (BodyJson
             [("status", JStr "error");
              ("message", JStr "Verification completed but webhook failed");
              ("phone", JStr Scenario.phone);
              ("verified", JBool true);
              ("webhook_sent", JBool false);
              ("error", JStr "Webhook responded with status 500")])) /\
  queries (trace (snd r)) =
    [SelectLatestSubmission Scenario.phone;
     InsertVerificationAttempt "1700000060000" Scenario.phone "telegram"
       false true;
     SelectWebhookEndpoint Scenario.key;
     UpdateNotDelivered Scenario.phone] /\
  length (requests (trace (snd r))) = 1%nat /\
  List.map rs_phone_verified (raw_submissions (store (snd r))) = [false] /\
  List.map rs_webhook_sent (raw_submissions (store (snd r))) = [false] /\
  forall phone rows,
    List.map rs_phone_verified
      (update_where_phone phone set_not_delivered rows)
    = List.map rs_phone_verified rows.
Proof.
  cbv zeta. repeat split; try (vm_compute; reflexivity).
  apply update_not_delivered_keeps_verified.
Qed.

(** The same event when the webhook answers 200: both flags are set. *)
Example successful_delivery_sets_both_flags :
  let w := Scenario.world Scenario.up Scenario.up 60000
             (HttpResponse 200 "ok") in
  let r := handleVerification w Scenario.phone "telegram" None
             (Scenario.connected (Scenario.db true)) in
  List.map rs_phone_verified (raw_submissions (store (snd r))) = [true] /\
  List.map rs_webhook_sent (raw_submissions (store (snd r))) = [true] /\
  length (requests (trace (snd r))) = 1%nat.
Proof. vm_compute. auto. Qed.

(** *** No enabled endpoint *)




